(** * Dewp ETL: the report-1 pipeline of [dewp.transformers.dewp_transformers]

    A shallow embedding of [DewpETL.extract], [DewpETL.transform_report1],
    [DewpETL.load] and [DewpETL.etl_report1], together with the pandas
    operations these methods call, and the properties of the pipeline.

    Conventions of the embedding.
    - A pandas [DataFrame] is a list of column labels and a list of rows;
      the row index plays no role in the pipeline ([ignore_index=True] on
      concatenation, [as_index=False] on grouping) and is left out.
    - A cell is a number, a text or the missing value.  Numbers are
      integers: the report only compares, minimises and maximises them,
      and on the values without a missing entry these agree with float64.
    - A Python exception is a value of [exn]; a method that may raise
      returns a [result].
    - Logging and the calls to the S3 connector are recorded, in program
      order, in the event trace of the [prog] monad. *)

From Stdlib Require Import ZArith List String Ascii Bool Lia Permutation.
From Stdlib Require Import Sorted.
Import ListNotations.

Local Open Scope string_scope.
Local Open Scope list_scope.

(** ** Exceptions and results *)

Inductive exn : Type :=
| KeyError (labels : list string)
| TypeError (what : string)
| ValueError (what : string)
| UndefinedVariableError (name : string)
| SyntaxError (what : string)
| InvalidIndexError (what : string)
| StorageError (what : string).

Inductive result (A : Type) : Type :=
| Ok (a : A)
| Raise (e : exn).

Arguments Ok {A} a.
Arguments Raise {A} e.

Definition rbind {A B : Type} (r : result A) (k : A -> result B) : result B :=
  match r with
  | Ok a => k a
  | Raise e => Raise e
  end.

Declare Scope result_scope.
Delimit Scope result_scope with result.
Notation "x <- c ;; k" := (rbind c (fun x => k))
  (at level 61, c at next level, right associativity) : result_scope.

Fixpoint rmap {A B : Type} (f : A -> result B) (l : list A) : result (list B) :=
  match l with
  | [] => Ok []
  | a :: l' =>
      (b <- f a ;;
       bs <- rmap f l' ;;
       Ok (b :: bs))%result
  end.

(** ** Cells and frames *)

Inductive cell : Type :=
| Num (z : Z)
| Str (s : string)
| NaN.

Definition Series : Type := list cell.

Record DataFrame : Type := mkDF {
  columns : list string;
  rows : list (list cell)
}.

Definition cell_eq_dec (a b : cell) : {a = b} + {a <> b}.
Proof. decide equality; [apply Z.eq_dec | apply string_dec]. Defined.

Definition key_eq_dec : forall a b : list cell, {a = b} + {a <> b} :=
  list_eq_dec cell_eq_dec.

Definition is_nan (c : cell) : bool :=
  match c with
  | NaN => true
  | _ => false
  end.

(** [DataFrame.empty]: true when one of the two axes has length zero. *)
Definition empty (df : DataFrame) : bool :=
  (List.length (columns df) =? 0)%nat || (List.length (rows df) =? 0)%nat.

(** [pd.DataFrame()] *)
Definition DataFrame_new : DataFrame := mkDF [] [].

(** The cells of [row] that stand under the label [label]; a row shorter
    than the header reads as missing there. *)
Fixpoint select (label : string) (cols : list string) (row : list cell) : list cell :=
  match cols with
  | [] => []
  | c :: cs =>
      if c =? label
      then hd NaN row :: select label cs (tl row)
      else select label cs (tl row)
  end.

Definition occurrences (label : string) (cols : list string) : nat :=
  List.length (filter (String.eqb label) cols).

Definition has_label (cols : list string) (label : string) : bool :=
  existsb (String.eqb label) cols.

(** The one cell under [label]: the last one when the label is repeated
    (pandas resolves names through a dict built from the columns in order),
    missing when the label is absent. *)
Definition getcell (label : string) (cols : list string) (row : list cell) : cell :=
  last (select label cols row) NaN.

(** [df.loc[:, labels]]: the columns named by [labels], in that order;
    every label of [labels] that is not a column is reported in the
    [KeyError]. *)
Definition loc_columns (df : DataFrame) (labels : list string) : result DataFrame :=
  match filter (fun l => negb (has_label (columns df) l)) labels with
  | [] =>
      Ok (mkDF (flat_map (fun l => filter (String.eqb l) (columns df)) labels)
               (map (fun r => flat_map (fun l => select l (columns df) r) labels)
                    (rows df)))
  | missing => Raise (KeyError missing)
  end.

(** [df[label]] read as a Series.  With a repeated label pandas hands back
    a DataFrame, which [pd.to_numeric] refuses with a [TypeError]. *)
Definition getitem (df : DataFrame) (label : string) : result Series :=
  match occurrences label (columns df) with
  | O => Raise (KeyError [label])
  | S O => Ok (map (getcell label (columns df)) (rows df))
  | _ => Raise (TypeError "arg must be a list, tuple, 1-d array, or Series")
  end.

(** One row of [df[label] = series]: the cell under [label] is replaced. *)
Fixpoint put (label : string) (cols : list string) (row : list cell) (v : cell) : list cell :=
  match cols with
  | [] => []
  | c :: cs =>
      (if c =? label then v else hd NaN row) :: put label cs (tl row) v
  end.

(** [df[label] = series]: an existing column is overwritten, a new label
    is appended as the last column. *)
Definition setitem (df : DataFrame) (label : string) (s : Series) : DataFrame :=
  if has_label (columns df) label
  then mkDF (columns df)
            (map (fun rv => put label (columns df) (fst rv) (snd rv))
                 (combine (rows df) s))
  else mkDF (columns df ++ [label])
            (map (fun rv => fst rv ++ [snd rv]) (combine (rows df) s)).

(** [Series.fillna(0)] *)
Definition fill0 (c : cell) : cell := if is_nan c then Num 0 else c.

Definition fillna0 (s : Series) : Series := map fill0 s.

(** ** Decimal texts *)

Definition digit_of (a : ascii) : option Z :=
  let n := nat_of_ascii a in
  if ((48 <=? n) && (n <=? 57))%nat then Some (Z.of_nat (n - 48)) else None.

Fixpoint digits_acc (s : string) (acc : Z) : option Z :=
  match s with
  | EmptyString => Some acc
  | String a s' =>
      match digit_of a with
      | Some d => digits_acc s' (10 * acc + d)%Z
      | None => None
      end
  end.

(** A non-empty run of decimal digits. *)
Definition digits (s : string) : option Z :=
  match s with
  | EmptyString => None
  | _ => digits_acc s 0%Z
  end.

(** The integer literals of a query expression: decimal digits, and as in
    Python no leading zero before a non-zero number. *)
Definition int_literal (s : string) : option Z :=
  match digits s with
  | Some z =>
      match s with
      | String "0" (String _ _) => if (z =? 0)%Z then Some z else None
      | _ => Some z
      end
  | None => None
  end.

(** A signed decimal integer text, the instance of the text-to-number
    conversion used in the worked scenario. *)
Definition decimal_text (s : string) : option Z :=
  match s with
  | String "-" s' => option_map Z.opp (digits s')
  | String "+" s' => digits s'
  | _ => digits s
  end.

(** ** The texts of a query expression *)

Definition name_start (a : ascii) : bool :=
  let n := nat_of_ascii a in
  ((65 <=? n) && (n <=? 90) || (97 <=? n) && (n <=? 122) || (n =? 95))%nat.

Definition name_char (a : ascii) : bool :=
  let n := nat_of_ascii a in
  (name_start a || (48 <=? n) && (n <=? 57))%nat.

Fixpoint name_chars (s : string) : bool :=
  match s with
  | EmptyString => true
  | String a s' => name_char a && name_chars s'
  end.

Definition python_keywords : list string :=
  ["False"; "None"; "True"; "and"; "as"; "assert"; "async"; "await"; "break";
   "class"; "continue"; "def"; "del"; "elif"; "else"; "except"; "finally"; "for";
   "from"; "global"; "if"; "import"; "in"; "is"; "lambda"; "nonlocal"; "not"; "or";
   "pass"; "raise"; "return"; "try"; "while"; "with"; "yield"].

(** A label that the expression of line 116 reads as one name: letters,
    digits and underscores, not starting with a digit, and no keyword.
    The query is put together as text, so this is what makes the text
    read as "label >= literal". *)
Definition is_name (s : string) : bool :=
  match s with
  | EmptyString => false
  | String a s' => name_start a && name_chars s' && negb (has_label python_keywords s)
  end.

(** A decimal number [mantissa / 10 ^ scale]. *)
Record decimal : Type := mkDecimal { mantissa : Z; scale : nat }.

(** [d <= y] for a decimal [d] and an integer [y]. *)
Definition decimal_le (d : decimal) (y : Z) : bool :=
  (mantissa d <=? y * 10 ^ Z.of_nat (scale d))%Z.

Fixpoint split_dot (s : string) : string * option string :=
  match s with
  | EmptyString => (EmptyString, None)
  | String a rest =>
      if (a =? ".")%char then (EmptyString, Some rest)
      else let (whole, fraction) := split_dot rest in (String a whole, fraction)
  end.

(** An unsigned number of a query expression: an integer literal, or
    digits, a point and digits. *)
Definition unsigned_literal (s : string) : option decimal :=
  match split_dot s with
  | (whole, None) => option_map (fun z => mkDecimal z 0) (int_literal whole)
  | (whole, Some fraction) =>
      match digits whole, digits fraction with
      | Some _, Some _ =>
          option_map (fun z => mkDecimal z (String.length fraction))
                     (digits (whole ++ fraction))
      | _, _ => None
      end
  end.

(** The number literals of a query expression, with their sign. *)
Definition number_literal (s : string) : option decimal :=
  match s with
  | EmptyString => None
  | String a s' =>
      if (a =? "-")%char
      then option_map (fun d => mkDecimal (- mantissa d) (scale d)) (unsigned_literal s')
      else if (a =? "+")%char then unsigned_literal s'
      else unsigned_literal s
  end.

(** ** Ordering of group keys

    [groupby] sorts the groups by their key ([sort=True] is its default):
    numbers by value, texts by code point, numbers before texts. *)

Definition cell_leb (a b : cell) : bool :=
  match a, b with
  | Num x, Num y => (x <=? y)%Z
  | Num _, _ => true
  | Str _, Num _ => false
  | Str s, Str t => String.leb s t
  | Str _, NaN => true
  | NaN, NaN => true
  | NaN, _ => false
  end.

Fixpoint key_leb (k1 k2 : list cell) : bool :=
  match k1, k2 with
  | [], _ => true
  | _ :: _, [] => false
  | a :: k1', b :: k2' =>
      if cell_eq_dec a b then key_leb k1' k2' else cell_leb a b
  end.

Fixpoint insert_key (k : list cell) (ks : list (list cell)) : list (list cell) :=
  match ks with
  | [] => [k]
  | k' :: ks' => if key_leb k k' then k :: ks else k' :: insert_key k ks'
  end.

Fixpoint sort_keys (ks : list (list cell)) : list (list cell) :=
  match ks with
  | [] => []
  | k :: ks' => insert_key k (sort_keys ks')
  end.

(** ** Aggregation *)

(** The numbers of a series; the missing value is skipped ([skipna]) and a
    text among numbers cannot be compared with them. *)
Fixpoint numbers (s : Series) : result (list Z) :=
  match s with
  | [] => Ok []
  | Num z :: s' => (zs <- numbers s' ;; Ok (z :: zs))%result
  | NaN :: s' => numbers s'
  | Str _ :: _ => Raise (TypeError "'<=' not supported between instances of 'str' and 'int'")
  end.

Definition series_min (s : Series) : result cell :=
  (zs <- numbers s ;;
   Ok (match zs with
       | [] => NaN
       | z :: zs' => Num (fold_left Z.min zs' z)
       end))%result.

Definition series_max (s : Series) : result cell :=
  (zs <- numbers s ;;
   Ok (match zs with
       | [] => NaN
       | z :: zs' => Num (fold_left Z.max zs' z)
       end))%result.

Definition row_key (keys cols : list string) (row : list cell) : list cell :=
  map (fun k => getcell k cols row) keys.

Definition same_key (k1 k2 : list cell) : bool :=
  if key_eq_dec k1 k2 then true else false.

Fixpoint distinct_labels (l : list string) : bool :=
  match l with
  | [] => true
  | a :: l' => negb (has_label l' a) && distinct_labels l'
  end.

(** The labels of the two aggregates of the report. *)
Definition aggregate_labels : list string := ["min_value"; "max_value"].

(** The grouping keys that [as_index=False] puts back as columns: a key
    whose label is the label of an aggregate is not put back, the
    aggregate stands under that label. *)
Definition shown_labels (keys : list string) : list string :=
  filter (fun k => negb (has_label aggregate_labels k)) keys.

Fixpoint shown_cells (keys : list string) (k : list cell) : list cell :=
  match keys, k with
  | l :: keys', c :: k' =>
      if has_label aggregate_labels l
      then shown_cells keys' k'
      else c :: shown_cells keys' k'
  | _, _ => []
  end.

(** What [groupby(keys, as_index=False)] and the named aggregation ask of
    the labels: each key is one column of the frame, the aggregated column
    is one column of the frame, and no key is put back twice. *)
Fixpoint check_groupers (cols keys : list string) : result unit :=
  match keys with
  | [] => Ok tt
  | k :: keys' =>
      match occurrences k cols with
      | O => Raise (KeyError [k])
      | S O => check_groupers cols keys'
      | _ => Raise (ValueError "Grouper not 1-dimensional")
      end
  end.

Definition check_aggregated (cols : list string) (value : string) : result unit :=
  match occurrences value cols with
  | O => Raise (KeyError [value])
  | S O => Ok tt
  | _ => Raise (ValueError "aggregated column not 1-dimensional")
  end.

Definition check_output_labels (keys : list string) : result unit :=
  if distinct_labels (shown_labels keys)
  then Ok tt
  else Raise (ValueError "cannot insert column, already exists").

(** [df.groupby(keys, as_index=False).agg(min_value=(value, 'min'),
    max_value=(value, 'max'))].  Rows with a missing key are left out
    ([dropna=True] is the default of [groupby]); the groups come out sorted
    by key, one row each: the cells of the keys that are put back, then
    the minimum and the maximum of the value column over the group.  The
    value column may be a key. *)
Definition groupby_min_max (df : DataFrame) (keys : list string) (value : string)
  : result DataFrame :=
  (_ <- check_groupers (columns df) keys ;;
   _ <- check_aggregated (columns df) value ;;
   _ <- check_output_labels keys ;;
   let key_of := row_key keys (columns df) in
   let kept := filter (fun r => negb (existsb is_nan (key_of r))) (rows df) in
   let groups := sort_keys (nodup key_eq_dec (map key_of kept)) in
   out <- rmap (fun k =>
                  let vs := map (getcell value (columns df))
                                (filter (fun r => same_key (key_of r) k) kept) in
                  lo <- series_min vs ;;
                  hi <- series_max vs ;;
                  Ok (shown_cells keys k ++ [lo; hi])) groups ;;
   Ok (mkDF (shown_labels keys ++ aggregate_labels) out))%result.

(** [df.rename(columns=mapping)] *)
Fixpoint renamed (mapping : list (string * string)) (label : string) : string :=
  match mapping with
  | [] => label
  | (old, new) :: mapping' => if old =? label then new else renamed mapping' label
  end.

Definition rename_columns (df : DataFrame) (mapping : list (string * string)) : DataFrame :=
  mkDF (map (renamed mapping) (columns df)) (rows df).

(** ** Query *)

(** One row of the mask of [name >= d]: a missing value compares false, a
    text cannot be compared with a number. *)
Definition ge_mask (d : decimal) (c : cell) : result bool :=
  match c with
  | Num y => Ok (decimal_le d y)
  | NaN => Ok false
  | Str _ =>
      Raise (TypeError
               (if (scale d =? 0)%nat
                then "'>=' not supported between instances of 'str' and 'int'"
                else "'>=' not supported between instances of 'str' and 'float'"))
  end.

Fixpoint keep_masked {A : Type} (l : list A) (mask : list bool) : list A :=
  match l, mask with
  | a :: l', b :: mask' => if b then a :: keep_masked l' mask' else keep_masked l' mask'
  | _, _ => []
  end.

(** [df.query(name + '>=' + lit)].  The expression is the text the source
    puts together from a column label and the configured filter.  The
    embedding covers the expressions whose right operand is a number
    literal: a label that does not read as a name is a [SyntaxError], a
    name that is no column is an [UndefinedVariableError], and the rows
    are compared with the number.  A right operand that is no number
    literal (the label of another column, an arithmetic expression) is
    outside the embedding: the model stops there, with
    [UndefinedVariableError] for a name and [SyntaxError] for any other
    text, and the properties below that depend on the filter state the
    number literal as a hypothesis. *)
Definition query_ge (df : DataFrame) (name lit : string) : result DataFrame :=
  if is_name name then
    if has_label (columns df) name then
      match number_literal lit with
      | Some d =>
          (mask <- rmap (fun r => ge_mask d (getcell name (columns df) r)) (rows df) ;;
           Ok (mkDF (columns df) (keep_masked (rows df) mask)))%result
      | None =>
          if is_name lit then Raise (UndefinedVariableError lit)
          else Raise (SyntaxError "invalid syntax")
      end
    else Raise (UndefinedVariableError name)
  else Raise (SyntaxError "invalid syntax").

(** ** Configuration *)

Record DewpSourceConfig : Type := {
  src_columns : list string;
  src_col_year : string;
  src_col_industry_aggregation_knzsioc : string;
  src_col_industry_code_nzsioc : string;
  src_col_value : string;
  src_col_year_filter : string;
  src_files_prefix : string;
  src_format : string
}.

Record DewpTargetConfig : Type := {
  trg_columns : list string;
  trg_col_year : string;
  trg_col_industry_aggregation_knzsioc : string;
  trg_col_industry_code_nzsioc : string;
  trg_col_min_value : string;
  trg_col_max_value : string;
  trg_key : string;
  trg_key_date_format : string;
  trg_format : string
}.

(** ** Events and programs

    What a method does besides computing: the messages it logs and the
    calls it makes to a bucket connector, in program order.  A raised
    exception ends the trace where it is raised. *)

Inductive event : Type :=
| LogInfo (msg : string)
| ListFiles (prefix : string)
| ReadCsv (key : string)
| WriteDf (df : DataFrame) (key : string) (format : string).

Definition prog (A : Type) : Type := (list event * result A)%type.

Definition pret {A : Type} (a : A) : prog A := ([], Ok a).

Definition pbind {A B : Type} (m : prog A) (k : A -> prog B) : prog B :=
  match m with
  | (t, Ok a) => let (t', r) := k a in (t ++ t', r)
  | (t, Raise e) => (t, Raise e)
  end.

Definition lift {A : Type} (r : result A) : prog A := ([], r).

Definition perform {A : Type} (ev : event) (r : result A) : prog A := ([ev], r).

Definition log_info (msg : string) : prog unit := perform (LogInfo msg) (Ok tt).

Declare Scope prog_scope.
Delimit Scope prog_scope with prog.
Notation "x <- c ;; k" := (pbind c (fun x => k))
  (at level 61, c at next level, right associativity) : prog_scope.
Notation "c ;; k" := (pbind c (fun _ => k))
  (at level 61, right associativity) : prog_scope.

Fixpoint pmap {A B : Type} (f : A -> prog B) (l : list A) : prog (list B) :=
  match l with
  | [] => pret []
  | a :: l' =>
      (b <- f a ;;
       bs <- pmap f l' ;;
       pret (b :: bs))%prog
  end.

Definition trace {A : Type} (m : prog A) : list event := fst m.
Definition outcome {A : Type} (m : prog A) : result A := snd m.

Definition writes (t : list event) : list (DataFrame * string * string) :=
  flat_map (fun ev => match ev with
                      | WriteDf df key format => [(df, key, format)]
                      | _ => []
                      end) t.

(** ** The bucket connector *)

(** Modelled from the spec: [dewp.common.s3.S3BucketConnector] is not among
    the sources of the component.  The pipeline uses three of its methods
    (the Storage Port: list, read, write); they are the fields of this
    interface, each giving what the call answers or the exception it
    raises, and every property below holds for any connector. *)
Record S3BucketConnector : Type := {
  list_files_in_prefix : string -> result (list string);
  read_csv_to_df : string -> result DataFrame;
  write_df_to_s3 : DataFrame -> string -> string -> result bool
}.

Definition call_list_files (s3 : S3BucketConnector) (prefix : string) : prog (list string) :=
  perform (ListFiles prefix) (list_files_in_prefix s3 prefix).

Definition call_read_csv (s3 : S3BucketConnector) (key : string) : prog DataFrame :=
  perform (ReadCsv key) (read_csv_to_df s3 key).

Definition call_write_df (s3 : S3BucketConnector) (df : DataFrame) (key format : string)
  : prog bool :=
  perform (WriteDf df key format) (write_df_to_s3 s3 df key format).

(** ** Concatenation *)

Fixpoint union_labels (seen : list string) (ls : list string) : list string :=
  match ls with
  | [] => seen
  | l :: ls' =>
      if has_label seen l then union_labels seen ls' else union_labels (seen ++ [l]) ls'
  end.

Definition same_labels (l1 l2 : list string) : bool :=
  if list_eq_dec string_dec l1 l2 then true else false.

(** [pd.concat(frames, ignore_index=True)].  Frames with one and the same
    header are stacked under it.  Otherwise the columns are the labels of
    all the frames in the order they are first seen, the rows follow frame
    by frame, and a cell under a label its frame does not have is missing;
    this needs every frame to have distinct labels.  An empty list of
    frames is refused. *)
Definition concat (frames : list DataFrame) : result DataFrame :=
  match frames with
  | [] => Raise (ValueError "No objects to concatenate")
  | first :: _ =>
      if forallb (fun df => same_labels (columns df) (columns first)) frames
      then Ok (mkDF (columns first) (flat_map rows frames))
      else if forallb (fun df => distinct_labels (columns df)) frames
      then
        let cols := fold_left union_labels (map columns frames) [] in
        Ok (mkDF cols
                 (flat_map (fun df =>
                              map (fun r =>
                                     map (fun c =>
                                            if has_label (columns df) c
                                            then getcell c (columns df) r
                                            else NaN) cols)
                                  (rows df))
                           frames))
      else Raise (InvalidIndexError
                    "Reindexing only valid with uniquely valued Index objects")
  end.

(** ** Dates *)

Record datetime : Type := {
  dt_year : nat;
  dt_month : nat;
  dt_day : nat;
  dt_hour : nat;
  dt_minute : nat;
  dt_second : nat
}.

Definition digit_char (n : nat) : ascii := ascii_of_nat (48 + n mod 10).

Fixpoint zfill (width : nat) (n : nat) : string :=
  match width with
  | O => ""
  | S w => zfill w (n / 10) ++ String (digit_char n) ""
  end.

(** [datetime.strftime] for the directives of the year, the month, the
    day, the hour, the minute and the second, and for the text between
    directives.  The other directives (names of days and months, day of
    the year, week numbers, time zones) are outside the embedding and are
    copied as they stand; the properties of [load] hold for the key
    whatever the formatted date is. *)
Fixpoint strftime (d : datetime) (format : string) : string :=
  match format with
  | String "%" (String c rest) =>
      let field :=
        match c with
        | "Y"%char => Some (zfill 4 (dt_year d))
        | "y"%char => Some (zfill 2 (dt_year d))
        | "m"%char => Some (zfill 2 (dt_month d))
        | "d"%char => Some (zfill 2 (dt_day d))
        | "H"%char => Some (zfill 2 (dt_hour d))
        | "M"%char => Some (zfill 2 (dt_minute d))
        | "S"%char => Some (zfill 2 (dt_second d))
        | "%"%char => Some "%"
        | _ => None
        end in
      match field with
      | Some text => text ++ strftime d rest
      | None => String "%" (String c (strftime d rest))
      end
  | String a rest => String a (strftime d rest)
  | EmptyString => ""
  end.

(** ** The ETL component *)

Record DewpETL : Type := {
  s3_bucket_src : S3BucketConnector;
  s3_bucket_trg : S3BucketConnector;
  src_args : DewpSourceConfig;
  trg_args : DewpTargetConfig
}.

Section Pipeline.

(** The conversion of a text to a number inside [pd.to_numeric]: [None]
    where the text is not a number.  The pipeline is stated for any such
    conversion. *)
Variable str_to_number : string -> option Z.

(** The clock read by [datetime.today()]. *)
Variable today : datetime.

(** One entry under [errors='coerce']: what is not a number becomes the
    missing value. *)
Definition to_numeric_scalar (c : cell) : cell :=
  match c with
  | Num z => Num z
  | Str text => match str_to_number text with
                | Some z => Num z
                | None => NaN
                end
  | NaN => NaN
  end.

(** [pd.to_numeric(series, errors='coerce')] *)
Definition to_numeric (s : Series) : Series := map to_numeric_scalar s.

(** [DewpETL.extract] *)
Definition extract (etl : DewpETL) : prog DataFrame :=
  (log_info "Extracting Dewp source files started..." ;;
   files <- call_list_files (s3_bucket_src etl) (src_files_prefix (src_args etl)) ;;
   data_frame <- match files with
                 | [] => pret DataFrame_new
                 | _ => frames <- pmap (call_read_csv (s3_bucket_src etl)) files ;;
                        lift (concat frames)
                 end ;;
   log_info "Extracting Dewp source files finished." ;;
   pret data_frame)%prog.

(** Lines 111 to 114 of [transform_report1]: the projection on the
    configured columns and the coercion of the value column. *)
Definition report1_coerced (src : DewpSourceConfig) (data_frame : DataFrame)
  : result DataFrame :=
  (data_frame <- loc_columns data_frame (src_columns src) ;;
   values <- getitem data_frame (src_col_value src) ;;
   let data_frame := setitem data_frame (src_col_value src) (to_numeric values) in
   values <- getitem data_frame (src_col_value src) ;;
   Ok (setitem data_frame (src_col_value src) (fillna0 values)))%result.

(** Lines 111 to 116: up to and with the year filter. *)
Definition report1_filtered (src : DewpSourceConfig) (data_frame : DataFrame)
  : result DataFrame :=
  (data_frame <- report1_coerced src data_frame ;;
   query_ge data_frame (src_col_year src) (src_col_year_filter src))%result.

Definition report1_keys (src : DewpSourceConfig) : list string :=
  [src_col_year src; src_col_industry_aggregation_knzsioc src;
   src_col_industry_code_nzsioc src].

(** Lines 111 to 127: the steps applied to a frame that is not empty. *)
Definition report1_steps (etl : DewpETL) (data_frame : DataFrame) : result DataFrame :=
  (data_frame <- report1_filtered (src_args etl) data_frame ;;
   data_frame <- groupby_min_max data_frame (report1_keys (src_args etl))
                                 (src_col_value (src_args etl)) ;;
   Ok (rename_columns data_frame
         [("min_value", trg_col_min_value (trg_args etl));
          ("max_value", trg_col_max_value (trg_args etl))]))%result.

(** [DewpETL.transform_report1] *)
Definition transform_report1 (etl : DewpETL) (data_frame : DataFrame) : prog DataFrame :=
  if empty data_frame then
    (log_info "The dataframe is empty. No transformations will be applied." ;;
     pret data_frame)%prog
  else
    (log_info "Applying transformations to Dewp source data for report 1 started..." ;;
     data_frame <- lift (report1_steps etl data_frame) ;;
     log_info "Applying transformations to Dewp source data finished..." ;;
     pret data_frame)%prog.

Definition target_key (trg : DewpTargetConfig) : string :=
  trg_key trg ++ strftime today (trg_key_date_format trg) ++ "." ++ trg_format trg.

(** [DewpETL.load] *)
Definition load (etl : DewpETL) (data_frame : DataFrame) : prog bool :=
  (call_write_df (s3_bucket_trg etl) data_frame (target_key (trg_args etl))
                 (trg_format (trg_args etl)) ;;
   log_info "Dewp target data successfully written." ;;
   pret true)%prog.

(** [DewpETL.etl_report1] *)
Definition etl_report1 (etl : DewpETL) : prog bool :=
  (data_frame <- extract etl ;;
   data_frame <- transform_report1 etl data_frame ;;
   load etl data_frame ;;
   pret true)%prog.

End Pipeline.

(** ** The worked scenario *)

Module Scenario.

Definition source : DewpSourceConfig := {|
  src_columns := ["Year"; "Industry_aggregation_NZSIOC"; "Industry_code_NZSIOC"; "Value"];
  src_col_year := "Year";
  src_col_industry_aggregation_knzsioc := "Industry_aggregation_NZSIOC";
  src_col_industry_code_nzsioc := "Industry_code_NZSIOC";
  src_col_value := "Value";
  src_col_year_filter := "2015";
  src_files_prefix := "annual";
  src_format := "csv"
|}.

Definition target : DewpTargetConfig := {|
  trg_columns := ["Year"; "Industry_aggregation_NZSIOC"; "Industry_code_NZSIOC";
                  "min_value"; "max_value"];
  trg_col_year := "Year";
  trg_col_industry_aggregation_knzsioc := "Industry_aggregation_NZSIOC";
  trg_col_industry_code_nzsioc := "Industry_code_NZSIOC";
  trg_col_min_value := "min_value";
  trg_col_max_value := "max_value";
  trg_key := "report1_";
  trg_key_date_format := "%Y%m%d";
  trg_format := "parquet"
|}.

Definition header : list string :=
  ["Year"; "Industry_aggregation_NZSIOC"; "Industry_code_NZSIOC"; "Units"; "Value"].

Definition three_rows : DataFrame :=
  mkDF header
       [ [Num 2016; Str "A"; Str "X"; Str "Dollars"; Str "10"];
         [Num 2016; Str "A"; Str "X"; Str "Dollars"; Str "abc"];
         [Num 2014; Str "A"; Str "X"; Str "Dollars"; Str "99"] ].

Definition bucket (files : list (string * result DataFrame)) : S3BucketConnector := {|
  list_files_in_prefix := fun _ => Ok (map fst files);
  read_csv_to_df := fun key =>
    match find (fun f => String.eqb (fst f) key) files with
    | Some f => snd f
    | None => Raise (StorageError "NoSuchKey")
    end;
  write_df_to_s3 := fun _ _ _ => Ok true
|}.

Definition etl (files : list (string * result DataFrame)) : DewpETL := {|
  s3_bucket_src := bucket files;
  s3_bucket_trg := bucket [];
  src_args := source;
  trg_args := target
|}.

Definition execution_date : datetime := {|
  dt_year := 2024; dt_month := 3; dt_day := 1;
  dt_hour := 0; dt_minute := 0; dt_second := 0
|}.

End Scenario.

(** ** Further frames and configurations *)

Module Cases.

Definition source_since (threshold : string) : DewpSourceConfig := {|
  src_columns := src_columns Scenario.source;
  src_col_year := "Year";
  src_col_industry_aggregation_knzsioc := "Industry_aggregation_NZSIOC";
  src_col_industry_code_nzsioc := "Industry_code_NZSIOC";
  src_col_value := "Value";
  src_col_year_filter := threshold;
  src_files_prefix := "annual";
  src_format := "csv"
|}.

Definition etl_since (threshold : string) : DewpETL := {|
  s3_bucket_src := Scenario.bucket [];
  s3_bucket_trg := Scenario.bucket [];
  src_args := source_since threshold;
  trg_args := Scenario.target
|}.

Definition four_groups : DataFrame :=
  mkDF Scenario.header
       [ [Num 2017; Str "B"; Str "Y"; Str "Dollars"; Str "5"];
         [Num 2016; Str "B"; Str "X"; Str "Dollars"; Str "8"];
         [Num 2017; Str "A"; Str "Z"; Str "Dollars"; Str "n/a"];
         [Num 2016; Str "B"; Str "X"; Str "Dollars"; Str "3"];
         [Num 2016; Str "A"; Str "X"; Str "Dollars"; Str "-4"] ].

Definition four_groups_report : DataFrame :=
  mkDF ["Year"; "Industry_aggregation_NZSIOC"; "Industry_code_NZSIOC";
        "min_value"; "max_value"]
       [ [Num 2016; Str "A"; Str "X"; Num (-4); Num (-4)];
         [Num 2016; Str "B"; Str "X"; Num 3; Num 8];
         [Num 2017; Str "A"; Str "Z"; Num 0; Num 0];
         [Num 2017; Str "B"; Str "Y"; Num 5; Num 5] ].

End Cases.

(** ** Vocabulary of the properties *)

(** The test of the year filter on one cell: a number at least [d]. *)
Definition year_at_least (d : decimal) (c : cell) : bool :=
  match c with
  | Num y => decimal_le d y
  | _ => false
  end.

(** A row after lines 113 and 114: its value cell went through
    [to_numeric] and was written back, then through [fillna] and was
    written back. *)
Definition coerced_row (p : string -> option Z) (cols : list string) (value : string)
           (r : list cell) : list cell :=
  put value cols
      (put value cols r (to_numeric_scalar p (getcell value cols r)))
      (fill0 (to_numeric_scalar p (getcell value cols r))).

(** The key cells of a row of the report: its first three cells. *)
Definition group_key (out_row : list cell) : list cell := firstn 3 out_row.

(** What a row of the aggregation says about the group of the key [k]
    among the rows [rs]: cells of the key first, then, as its last two
    cells, the least and the greatest value of the group, both
    attained. *)
Definition group_row (key_of : list cell -> list cell) (value_of : list cell -> cell)
           (rs : list (list cell)) (k out : list cell) : Prop :=
  exists shown lo hi,
    out = shown ++ [Num lo; Num hi] /\
    incl shown k /\
    (exists r, In r rs /\ key_of r = k /\ value_of r = Num lo) /\
    (exists r, In r rs /\ key_of r = k /\ value_of r = Num hi) /\
    (forall r, In r rs -> key_of r = k ->
               exists v, value_of r = Num v /\ (lo <= v <= hi)%Z).

(** The row of a group whose three keys are all put back: the key, the
    minimum and the maximum. *)
Definition full_row (k out : list cell) : Prop :=
  exists lo hi, out = k ++ [Num lo; Num hi].

(** * Properties *)

(** ** Results and programs *)

Lemma rmap_Forall2 {A B : Type} (f : A -> result B) (l : list A) (l' : list B) :
  rmap f l = Ok l' -> Forall2 (fun a b => f a = Ok b) l l'.
Proof.
  revert l'. induction l as [|a l IH]; simpl; intros l' H.
  - inversion H. constructor.
  - destruct (f a) as [b|e] eqn:Hf; simpl in H; [|discriminate].
    destruct (rmap f l) as [bs|e] eqn:Hr; simpl in H; [|discriminate].
    inversion H; subst. constructor; auto.
Qed.

Lemma rmap_total {A B : Type} (f : A -> result B) (l : list A) :
  (forall a, In a l -> exists b, f a = Ok b) -> exists l', rmap f l = Ok l'.
Proof.
  induction l as [|a l IH]; simpl; intros H.
  - eexists; reflexivity.
  - destruct (H a (or_introl eq_refl)) as [b Hb]. rewrite Hb. simpl.
    destruct IH as [bs Hbs]; [intros; apply H; now right|].
    rewrite Hbs. simpl. eexists; reflexivity.
Qed.

Lemma has_label_In (cols : list string) (label : string) :
  has_label cols label = true <-> In label cols.
Proof.
  unfold has_label. rewrite existsb_exists. split.
  - intros [x [Hin Heq]]. apply String.eqb_eq in Heq. now subst.
  - intros Hin. exists label. split; [assumption | apply String.eqb_refl].
Qed.

Lemma has_label_not_In (cols : list string) (label : string) :
  has_label cols label = false <-> ~ In label cols.
Proof.
  rewrite <- has_label_In. destruct (has_label cols label); split; intros H;
    congruence.
Qed.

Lemma occurrences_pos (cols : list string) (label : string) :
  occurrences label cols <> O <-> In label cols.
Proof.
  unfold occurrences. induction cols as [|c cols IH]; simpl.
  - split; [congruence | intros []].
  - destruct (String.eqb_spec label c) as [->|Hne]; simpl.
    + split; [now left | discriminate].
    + rewrite IH. split; [now right | intros [H|H]; [congruence | assumption]].
Qed.

(** ** The guard on an empty frame *)

Lemma empty_iff (df : DataFrame) :
  empty df = true <-> columns df = [] \/ rows df = [].
Proof.
  unfold empty. rewrite orb_true_iff, !Nat.eqb_eq.
  destruct (columns df), (rows df); simpl; split; intros [H|H];
    auto; discriminate.
Qed.

Lemma transform_report1_nonempty (p : string -> option Z) (etl : DewpETL) (df : DataFrame) :
  empty df = false ->
  transform_report1 p etl df =
  match report1_steps p etl df with
  | Ok out =>
      ([LogInfo "Applying transformations to Dewp source data for report 1 started...";
        LogInfo "Applying transformations to Dewp source data finished..."], Ok out)
  | Raise e =>
      ([LogInfo "Applying transformations to Dewp source data for report 1 started..."],
       Raise e)
  end.
Proof.
  intros H. unfold transform_report1. rewrite H.
  destruct (report1_steps p etl df); reflexivity.
Qed.

(** C4: on an empty frame [transform_report1] hands the same frame back,
    whatever the configuration; the only thing it does is to log that no
    transformation is applied: neither the projection nor the coercion,
    the filter, the aggregation or the renaming runs. *)
Theorem transform_report1_empty_identity
  (p : string -> option Z) (etl : DewpETL) (df : DataFrame) :
  empty df = true ->
  transform_report1 p etl df =
  ([LogInfo "The dataframe is empty. No transformations will be applied."], Ok df).
Proof.
  intros H. unfold transform_report1. rewrite H. reflexivity.
Qed.

Lemma transform_report1_empty_identity_witness :
  empty DataFrame_new = true /\
  transform_report1 decimal_text (Scenario.etl []) DataFrame_new =
  ([LogInfo "The dataframe is empty. No transformations will be applied."],
   Ok DataFrame_new).
Proof.
  split; [reflexivity|].
  apply (transform_report1_empty_identity decimal_text (Scenario.etl []) DataFrame_new).
  reflexivity.
Defined.

(** C10: a frame without rows is handed back unchanged even when it has
    named columns and these do not cover the configured ones; no
    [KeyError] is raised, because the guard looks at the two axes (no row,
    or no column) before anything else is done. *)
Theorem transform_report1_no_rows_bypasses_projection
  (p : string -> option Z) (etl : DewpETL) (df : DataFrame) :
  rows df = [] \/ columns df = [] ->
  empty df = true /\
  transform_report1 p etl df =
  ([LogInfo "The dataframe is empty. No transformations will be applied."], Ok df).
Proof.
  intros H.
  assert (He : empty df = true) by (apply empty_iff; tauto).
  split; [assumption|].
  unfold transform_report1. rewrite He. reflexivity.
Qed.

Lemma transform_report1_no_rows_bypasses_projection_witness :
  (exists c, In c (src_columns Scenario.source) /\ ~ In c ["Period"; "Amount"]) /\
  empty (mkDF ["Period"; "Amount"] []) = true /\
  transform_report1 decimal_text (Scenario.etl []) (mkDF ["Period"; "Amount"] []) =
  ([LogInfo "The dataframe is empty. No transformations will be applied."],
   Ok (mkDF ["Period"; "Amount"] [])).
Proof.
  split.
  - exists "Year". split; [now left|].
    intros [H|[H|[]]]; discriminate.
  - apply (transform_report1_no_rows_bypasses_projection
             decimal_text (Scenario.etl []) (mkDF ["Period"; "Amount"] [])).
    left. reflexivity.
Defined.

(** C5: the three source rows (2016, A, X, "10"), (2016, A, X, "abc") and
    (2014, A, X, "99") with the year filter 2015 give exactly one row:
    2016, A, X, minimum 0 and maximum 10. *)
Theorem scenario_three_rows :
  outcome (transform_report1 decimal_text (Scenario.etl []) Scenario.three_rows) =
  Ok (mkDF ["Year"; "Industry_aggregation_NZSIOC"; "Industry_code_NZSIOC";
            "min_value"; "max_value"]
           [[Num 2016; Str "A"; Str "X"; Num 0; Num 10]]).
Proof. vm_compute. reflexivity. Qed.

(** ** A configured column that the frame does not have *)

Lemma loc_columns_missing (df : DataFrame) (labels : list string) (c : string) :
  In c labels -> ~ In c (columns df) ->
  exists missing,
    In c missing /\
    (forall m, In m missing <-> In m labels /\ ~ In m (columns df)) /\
    loc_columns df labels = Raise (KeyError missing).
Proof.
  intros Hin Hout.
  exists (filter (fun l => negb (has_label (columns df) l)) labels).
  assert (Hspec : forall m,
             In m (filter (fun l => negb (has_label (columns df) l)) labels) <->
             In m labels /\ ~ In m (columns df)).
  { intros m. rewrite filter_In, negb_true_iff, has_label_not_In. tauto. }
  split; [apply Hspec; tauto|]. split; [exact Hspec|].
  unfold loc_columns.
  destruct (filter (fun l => negb (has_label (columns df) l)) labels) as [|m ms] eqn:Hf.
  - exfalso. apply (proj2 (Hspec c)). tauto.
  - reflexivity.
Qed.

(** C6, amended: when a configured source column is not a column of a
    frame that is not empty, [transform_report1] raises a [KeyError] that
    names the configured columns the frame lacks, right after it has
    logged the start of the transformation, and hands no frame back. *)
Theorem transform_report1_missing_column
  (p : string -> option Z) (etl : DewpETL) (df : DataFrame) (c : string) :
  empty df = false ->
  In c (src_columns (src_args etl)) ->
  ~ In c (columns df) ->
  exists missing,
    In c missing /\
    (forall m, In m missing <->
               In m (src_columns (src_args etl)) /\ ~ In m (columns df)) /\
    transform_report1 p etl df =
    ([LogInfo "Applying transformations to Dewp source data for report 1 started..."],
     Raise (KeyError missing)).
Proof.
  intros Hne Hin Hout.
  destruct (loc_columns_missing df _ c Hin Hout) as [missing [H1 [H2 H3]]].
  exists missing. split; [assumption|]. split; [assumption|].
  rewrite (transform_report1_nonempty p etl df Hne).
  unfold report1_steps, report1_filtered, report1_coerced.
  rewrite H3. reflexivity.
Qed.

Lemma transform_report1_missing_column_witness :
  exists missing,
    In "Value" missing /\
    (forall m, In m missing <->
               In m (src_columns Scenario.source) /\ ~ In m ["Year"; "Units"]) /\
    transform_report1 decimal_text (Scenario.etl [])
                      (mkDF ["Year"; "Units"] [[Num 2016; Str "Dollars"]]) =
    ([LogInfo "Applying transformations to Dewp source data for report 1 started..."],
     Raise (KeyError missing)).
Proof.
  apply (transform_report1_missing_column decimal_text (Scenario.etl [])
           (mkDF ["Year"; "Units"] [[Num 2016; Str "Dollars"]]) "Value").
  - reflexivity.
  - simpl. tauto.
  - simpl. intros [H|[H|[]]]; discriminate.
Defined.

(** C6 as stated fails in its last part: a frame that has every configured
    column, with a year column that holds text, makes the year filter raise
    a [TypeError]; the missing column is not the only way for
    [transform_report1] to raise. *)
Lemma transform_report1_other_exception :
  empty (mkDF Scenario.header
              [[Str "2016"; Str "A"; Str "X"; Str "Dollars"; Str "10"];
               [Str "FY2017"; Str "A"; Str "X"; Str "Dollars"; Str "12"]]) = false /\
  forallb (has_label Scenario.header) (src_columns Scenario.source) = true /\
  transform_report1 decimal_text (Scenario.etl [])
    (mkDF Scenario.header
          [[Str "2016"; Str "A"; Str "X"; Str "Dollars"; Str "10"];
           [Str "FY2017"; Str "A"; Str "X"; Str "Dollars"; Str "12"]]) =
  ([LogInfo "Applying transformations to Dewp source data for report 1 started..."],
   Raise (TypeError "'>=' not supported between instances of 'str' and 'int'")).
Proof. repeat split; vm_compute; reflexivity. Qed.

(** ** Load *)

(** C7: [load] makes exactly one write, of the frame it is given, in the
    configured format and under the key made of the target key prefix,
    the date of the clock formatted with the configured pattern, a dot and
    the target format. *)
Theorem load_writes_once_under_target_key
  (today : datetime) (etl : DewpETL) (df : DataFrame) :
  writes (trace (load today etl df)) =
  [(df,
    (trg_key (trg_args etl)
       ++ strftime today (trg_key_date_format (trg_args etl))
       ++ "." ++ trg_format (trg_args etl))%string,
    trg_format (trg_args etl))].
Proof.
  unfold load, call_write_df, perform, log_info, perform, pret, pbind, target_key.
  destruct (write_df_to_s3 _ _ _ _); reflexivity.
Qed.

Example load_key_of_execution_date :
  target_key Scenario.execution_date Scenario.target = "report1_20240301.parquet".
Proof. reflexivity. Qed.

(** A failed write is raised by [load] as it is. *)
Lemma load_write_failure (today : datetime) (etl : DewpETL) (df : DataFrame) (e : exn) :
  write_df_to_s3 (s3_bucket_trg etl) df (target_key today (trg_args etl))
                 (trg_format (trg_args etl)) = Raise e ->
  outcome (load today etl df) = Raise e.
Proof.
  intros H. unfold load, call_write_df, perform, pbind. rewrite H. reflexivity.
Qed.

(** ** Extract *)

Lemma pmap_reads_ok (s3 : S3BucketConnector) (files : list string) :
  (forall g, In g files -> exists d, read_csv_to_df s3 g = Ok d) ->
  exists frames, pmap (call_read_csv s3) files = (map ReadCsv files, Ok frames).
Proof.
  induction files as [|f files IH]; intros H.
  - eexists; reflexivity.
  - destruct (H f (or_introl eq_refl)) as [d Hd].
    destruct IH as [frames Hfr]; [intros; apply H; now right|].
    cbn [pmap]. rewrite Hfr. unfold call_read_csv, perform. rewrite Hd.
    cbn. rewrite app_nil_r. eexists; reflexivity.
Qed.

Lemma pmap_reads_fail (s3 : S3BucketConnector) (pre : list string) (f : string)
      (post : list string) (e : exn) :
  (forall g, In g pre -> exists d, read_csv_to_df s3 g = Ok d) ->
  read_csv_to_df s3 f = Raise e ->
  pmap (call_read_csv s3) (pre ++ f :: post) = (map ReadCsv (pre ++ [f]), Raise e).
Proof.
  induction pre as [|g pre IH]; intros Hpre Hf.
  - cbn [app pmap]. unfold call_read_csv at 1, perform. rewrite Hf. reflexivity.
  - destruct (Hpre g (or_introl eq_refl)) as [d Hd].
    cbn [app pmap].
    rewrite IH; [| intros; apply Hpre; now right | assumption].
    unfold call_read_csv, perform. rewrite Hd. reflexivity.
Qed.

Lemma first_failed_read (s3 : S3BucketConnector) (files : list string) (f : string) (e : exn) :
  In f files -> read_csv_to_df s3 f = Raise e ->
  exists pre g post e',
    files = pre ++ g :: post /\
    (forall h, In h pre -> exists d, read_csv_to_df s3 h = Ok d) /\
    read_csv_to_df s3 g = Raise e'.
Proof.
  induction files as [|h files IH]; intros Hin Hf; [destruct Hin|].
  destruct (read_csv_to_df s3 h) as [d|e0] eqn:Hh.
  - destruct Hin as [->|Hin]; [congruence|].
    destruct (IH Hin Hf) as [pre [g [post [e' [H1 [H2 H3]]]]]].
    exists (h :: pre), g, post, e'. subst files. repeat split; auto.
    intros h' [<-|Hh']; [eauto | auto].
  - exists [], h, files, e0. repeat split; auto. intros ? [].
Qed.

Lemma extract_listed (etl : DewpETL) (files : list string) :
  list_files_in_prefix (s3_bucket_src etl) (src_files_prefix (src_args etl)) = Ok files ->
  files <> [] ->
  extract etl =
  (let (t, r) :=
     (frames <- pmap (call_read_csv (s3_bucket_src etl)) files ;;
      data_frame <- lift (concat frames) ;;
      log_info "Extracting Dewp source files finished." ;;
      pret data_frame)%prog in
   (LogInfo "Extracting Dewp source files started..."
      :: ListFiles (src_files_prefix (src_args etl)) :: t, r)).
Proof.
  intros Hl Hne. unfold extract, call_list_files, perform, log_info, perform.
  rewrite Hl. destruct files as [|f files]; [congruence|].
  cbn [pbind].
  destruct (pmap (call_read_csv (s3_bucket_src etl)) (f :: files)) as [t [frames|e]];
    [|reflexivity].
  cbn [pbind lift]. destruct (concat frames); cbn; rewrite ?app_nil_r; reflexivity.
Qed.

(** C8: a read that fails ends [extract] with the exception of that read,
    as the connector raised it: the files before it were read once each,
    no file after it is read, nothing is read twice, and no frame is handed
    back.  With an empty listing [extract] reads nothing and hands back
    the frame without rows and without columns. *)
Theorem extract_failed_read_and_empty_listing (etl : DewpETL) :
  let s3 := s3_bucket_src etl in
  let prefix := src_files_prefix (src_args etl) in
  (list_files_in_prefix s3 prefix = Ok [] ->
   extract etl =
   ([LogInfo "Extracting Dewp source files started..."; ListFiles prefix;
     LogInfo "Extracting Dewp source files finished."],
    Ok (mkDF [] []))) /\
  (forall pre f post e,
      list_files_in_prefix s3 prefix = Ok (pre ++ f :: post) ->
      (forall g, In g pre -> exists d, read_csv_to_df s3 g = Ok d) ->
      read_csv_to_df s3 f = Raise e ->
      extract etl =
      (LogInfo "Extracting Dewp source files started..." :: ListFiles prefix
         :: map ReadCsv (pre ++ [f]),
       Raise e)) /\
  (forall files f e,
      list_files_in_prefix s3 prefix = Ok files ->
      In f files ->
      read_csv_to_df s3 f = Raise e ->
      exists g e',
        In g files /\ read_csv_to_df s3 g = Raise e' /\
        outcome (extract etl) = Raise e').
Proof.
  cbv zeta.
  assert (Hfail : forall pre f post e,
             list_files_in_prefix (s3_bucket_src etl) (src_files_prefix (src_args etl))
             = Ok (pre ++ f :: post) ->
             (forall g, In g pre -> exists d, read_csv_to_df (s3_bucket_src etl) g = Ok d) ->
             read_csv_to_df (s3_bucket_src etl) f = Raise e ->
             extract etl =
             (LogInfo "Extracting Dewp source files started..."
                :: ListFiles (src_files_prefix (src_args etl))
                :: map ReadCsv (pre ++ [f]),
              Raise e)).
  { intros pre f post e Hl Hpre Hf.
    rewrite (extract_listed etl _ Hl); [|destruct pre; discriminate].
    rewrite (pmap_reads_fail _ pre f post e Hpre Hf). reflexivity. }
  split; [|split].
  - intros Hl. unfold extract, call_list_files, perform, log_info, perform.
    rewrite Hl. reflexivity.
  - exact Hfail.
  - intros files f e Hl Hin Hf.
    destruct (first_failed_read _ files f e Hin Hf)
      as [pre [g [post [e' [Hfiles [Hpre Hg]]]]]].
    exists g, e'. subst files. split; [apply in_elt|]. split; [assumption|].
    rewrite (Hfail pre g post e' Hl Hpre Hg). reflexivity.
Qed.

(** The second of three listed files cannot be read: the first two are
    read, the third is not, and [extract] raises what the read raised. *)
Example extract_second_read_fails :
  extract (Scenario.etl
             [("annual_2016.csv", Ok Scenario.three_rows);
              ("annual_2017.csv", Raise (StorageError "AccessDenied"));
              ("annual_2018.csv", Ok Scenario.three_rows)]) =
  ([LogInfo "Extracting Dewp source files started..."; ListFiles "annual";
    ReadCsv "annual_2016.csv"; ReadCsv "annual_2017.csv"],
   Raise (StorageError "AccessDenied")).
Proof. reflexivity. Qed.

(** ** Cells of a row *)

Lemma last_repeat {A : Type} (v d : A) (n : nat) : last (repeat v (S n)) d = v.
Proof.
  induction n as [|n IH]; [reflexivity|].
  change (repeat v (S (S n))) with (v :: repeat v (S n)).
  change (last (v :: repeat v (S n)) d) with (last (repeat v (S n)) d).
  exact IH.
Qed.

Lemma select_put_same (label : string) (cols : list string) (row : list cell) (v : cell) :
  select label cols (put label cols row v) = repeat v (occurrences label cols).
Proof.
  unfold occurrences. revert row.
  induction cols as [|c cols IH]; intros row; [reflexivity|].
  cbn [select put filter hd tl]. rewrite (String.eqb_sym label c).
  destruct (c =? label); cbn [List.length repeat]; rewrite IH; reflexivity.
Qed.

Lemma select_put_other (label other : string) (cols : list string) (row : list cell) (v : cell) :
  other <> label ->
  select other cols (put label cols row v) = select other cols row.
Proof.
  intros Hne. revert row.
  induction cols as [|c cols IH]; intros row; [reflexivity|].
  cbn [select put hd tl].
  destruct (String.eqb_spec c other) as [->|Hco].
  - destruct (String.eqb_spec other label) as [->|_]; [congruence|].
    rewrite IH. reflexivity.
  - apply IH.
Qed.

Lemma getcell_put_same (label : string) (cols : list string) (row : list cell) (v : cell) :
  In label cols -> getcell label cols (put label cols row v) = v.
Proof.
  intros Hin. unfold getcell. rewrite select_put_same.
  apply occurrences_pos in Hin.
  destruct (occurrences label cols) as [|n]; [congruence|].
  apply last_repeat.
Qed.

Lemma getcell_put_other (label other : string) (cols : list string) (row : list cell) (v : cell) :
  other <> label ->
  getcell other cols (put label cols row v) = getcell other cols row.
Proof.
  intros Hne. unfold getcell. now rewrite select_put_other.
Qed.

Lemma combine_map_self {A B : Type} (f : A -> B) (l : list A) :
  combine l (map f l) = map (fun a => (a, f a)) l.
Proof.
  induction l as [|a l IH]; [reflexivity|]. simpl. now rewrite IH.
Qed.

Lemma setitem_existing (df : DataFrame) (label : string) (f : list cell -> cell) :
  In label (columns df) ->
  setitem df label (map f (rows df)) =
  mkDF (columns df) (map (fun r => put label (columns df) r (f r)) (rows df)).
Proof.
  intros Hin. unfold setitem.
  rewrite (proj2 (has_label_In _ _) Hin).
  rewrite combine_map_self, map_map. reflexivity.
Qed.

Lemma getitem_single (df : DataFrame) (label : string) :
  occurrences label (columns df) = 1%nat ->
  getitem df label = Ok (map (getcell label (columns df)) (rows df)).
Proof.
  intros H. unfold getitem. rewrite H. reflexivity.
Qed.

Lemma getitem_Ok_single (df : DataFrame) (label : string) (s : Series) :
  getitem df label = Ok s -> occurrences label (columns df) = 1%nat.
Proof.
  unfold getitem. destruct (occurrences label (columns df)) as [|[|n]];
    intros H; try discriminate. reflexivity.
Qed.

(** ** The coercion of the value column *)

Section Coercion.

Variable p : string -> option Z.

Lemma report1_coerced_rows (src : DewpSourceConfig) (df projected : DataFrame) :
  loc_columns df (src_columns src) = Ok projected ->
  occurrences (src_col_value src) (columns projected) = 1%nat ->
  report1_coerced p src df =
  Ok (mkDF (columns projected)
           (map (coerced_row p (columns projected) (src_col_value src))
                (rows projected))).
Proof.
  intros Hloc Hocc.
  assert (Hin : In (src_col_value src) (columns projected)).
  { apply occurrences_pos. rewrite Hocc. discriminate. }
  unfold report1_coerced. rewrite Hloc. cbn [rbind].
  rewrite (getitem_single _ _ Hocc). cbn [rbind].
  unfold to_numeric. rewrite map_map.
  rewrite (setitem_existing projected (src_col_value src)
             (fun r => to_numeric_scalar p
                         (getcell (src_col_value src) (columns projected) r)) Hin).
  rewrite getitem_single by exact Hocc. cbn [rbind columns rows].
  unfold fillna0. rewrite !map_map.
  match goal with
  | |- Ok (setitem ?d _ (map ?g ?l)) = _ =>
      pose proof (setitem_existing d (src_col_value src)
                    (fun r => fill0 (getcell (src_col_value src) (columns projected) r)))
        as Hset
  end.
  cbn [columns rows] in Hset. rewrite map_map in Hset.
  rewrite Hset by exact Hin. f_equal. f_equal. rewrite map_map.
  apply map_ext. intros r. unfold coerced_row.
  rewrite getcell_put_same by exact Hin. reflexivity.
Qed.

Lemma report1_coerced_inv (src : DewpSourceConfig) (df coerced : DataFrame) :
  report1_coerced p src df = Ok coerced ->
  exists projected,
    loc_columns df (src_columns src) = Ok projected /\
    occurrences (src_col_value src) (columns projected) = 1%nat.
Proof.
  unfold report1_coerced. intros H.
  destruct (loc_columns df (src_columns src)) as [projected|e]; [|discriminate].
  cbn [rbind] in H. exists projected. split; [reflexivity|].
  destruct (getitem projected (src_col_value src)) as [s|e] eqn:Hg; [|discriminate].
  exact (getitem_Ok_single _ _ _ Hg).
Qed.

Lemma coerced_value_is_number (c : cell) :
  exists z, fill0 (to_numeric_scalar p c) = Num z.
Proof.
  destruct c as [z|s|]; simpl; [ | destruct (p s); simpl | ];
    eexists; reflexivity.
Qed.

End Coercion.

Lemma Forall2_map_r {A B : Type} (R : A -> B -> Prop) (f : A -> B) (l : list A) :
  (forall a, In a l -> R a (f a)) -> Forall2 R l (map f l).
Proof.
  induction l as [|a l IH]; intros H; simpl; constructor.
  - apply H. now left.
  - apply IH. intros; apply H. now right.
Qed.

(** C2: once the frame is projected on the configured columns and has its
    value column, the coercion (lines 113 and 114) returns a frame with the
    same columns and the same rows in the same order, none dropped; in
    each row the value is the number it was or the number its text stands
    for, and exactly zero when the text is not a number or the value is
    missing; the other cells are as they were.  [to_numeric] and [fillna0]
    are total: they raise nothing. *)
Theorem coercion_non_numeric_to_zero
  (p : string -> option Z) (src : DewpSourceConfig) (df projected : DataFrame) :
  loc_columns df (src_columns src) = Ok projected ->
  occurrences (src_col_value src) (columns projected) = 1%nat ->
  exists coerced,
    report1_coerced p src df = Ok coerced /\
    columns coerced = columns projected /\
    Forall2 (fun r r' =>
               let v := getcell (src_col_value src) (columns projected) r in
               let v' := getcell (src_col_value src) (columns projected) r' in
               (forall z, v = Num z -> v' = Num z) /\
               (forall s z, v = Str s -> p s = Some z -> v' = Num z) /\
               (forall s, v = Str s -> p s = None -> v' = Num 0) /\
               (v = NaN -> v' = Num 0) /\
               (forall other, other <> src_col_value src ->
                  getcell other (columns projected) r' =
                  getcell other (columns projected) r))
            (rows projected) (rows coerced).
Proof.
  intros Hloc Hocc.
  assert (Hin : In (src_col_value src) (columns projected)).
  { apply occurrences_pos. rewrite Hocc. discriminate. }
  eexists. split; [apply (report1_coerced_rows p src df projected Hloc Hocc)|].
  split; [reflexivity|]. cbn [rows].
  apply Forall2_map_r. intros r _. cbv zeta. unfold coerced_row.
  rewrite getcell_put_same by exact Hin.
  repeat split.
  - intros z ->. reflexivity.
  - intros s z -> Hp. simpl. rewrite Hp. reflexivity.
  - intros s -> Hp. simpl. rewrite Hp. reflexivity.
  - intros ->. reflexivity.
  - intros other Hne. rewrite !getcell_put_other by exact Hne. reflexivity.
Qed.

Lemma coercion_non_numeric_to_zero_witness :
  exists coerced,
    report1_coerced decimal_text Scenario.source Scenario.three_rows = Ok coerced /\
    columns coerced = src_columns Scenario.source /\
    Forall2 (fun r r' =>
               let v := getcell "Value" (src_columns Scenario.source) r in
               let v' := getcell "Value" (src_columns Scenario.source) r' in
               (forall z, v = Num z -> v' = Num z) /\
               (forall s z, v = Str s -> decimal_text s = Some z -> v' = Num z) /\
               (forall s, v = Str s -> decimal_text s = None -> v' = Num 0) /\
               (v = NaN -> v' = Num 0) /\
               (forall other, other <> "Value" ->
                  getcell other (src_columns Scenario.source) r' =
                  getcell other (src_columns Scenario.source) r))
            [ [Num 2016; Str "A"; Str "X"; Str "10"];
              [Num 2016; Str "A"; Str "X"; Str "abc"];
              [Num 2014; Str "A"; Str "X"; Str "99"] ]
            (rows coerced).
Proof.
  apply (coercion_non_numeric_to_zero decimal_text Scenario.source Scenario.three_rows
           (mkDF (src_columns Scenario.source)
                 [ [Num 2016; Str "A"; Str "X"; Str "10"];
                   [Num 2016; Str "A"; Str "X"; Str "abc"];
                   [Num 2014; Str "A"; Str "X"; Str "99"] ])).
  - reflexivity.
  - reflexivity.
Defined.

Example coercion_of_three_rows :
  report1_coerced decimal_text Scenario.source Scenario.three_rows =
  Ok (mkDF (src_columns Scenario.source)
           [ [Num 2016; Str "A"; Str "X"; Num 10];
             [Num 2016; Str "A"; Str "X"; Num 0];
             [Num 2014; Str "A"; Str "X"; Num 99] ]).
Proof. reflexivity. Qed.

(** ** The year filter *)

Example number_literals :
  number_literal "2015" = Some (mkDecimal 2015 0) /\
  number_literal "-5" = Some (mkDecimal (-5) 0) /\
  number_literal "2015.5" = Some (mkDecimal 20155 1) /\
  number_literal "0" = Some (mkDecimal 0 0) /\
  number_literal "007" = None /\
  number_literal "20 15" = None /\
  number_literal "Value" = None /\
  number_literal "" = None.
Proof. repeat split; reflexivity. Qed.

Example names :
  is_name "Year" = true /\
  is_name "Industry_code_NZSIOC" = true /\
  is_name "Fiscal Year" = false /\
  is_name "2015" = false /\
  is_name "class" = false /\
  is_name "" = false.
Proof. repeat split; reflexivity. Qed.

Lemma digit_is_not (a c : ascii) (z : Z) :
  digit_of a = Some z -> digit_of c = None -> (a =? c)%char = false.
Proof.
  intros Ha Hc. destruct (Ascii.eqb_spec a c) as [->|_]; [congruence | reflexivity].
Qed.

Lemma digits_acc_split_dot (s : string) (acc z : Z) :
  digits_acc s acc = Some z -> split_dot s = (s, None).
Proof.
  revert acc. induction s as [|a s IH]; intros acc H; [reflexivity|].
  cbn [digits_acc] in H. destruct (digit_of a) as [d0|] eqn:Ha; [|discriminate].
  cbn [split_dot]. rewrite (digit_is_not a "." d0 Ha eq_refl).
  now rewrite (IH _ H).
Qed.

Lemma int_literal_number_literal (s : string) (t : Z) :
  int_literal s = Some t -> number_literal s = Some (mkDecimal t 0).
Proof.
  intros H. pose proof H as H0. unfold int_literal in H.
  destruct (digits s) as [z|] eqn:Hd; [|discriminate].
  destruct s as [|a s]; [discriminate|].
  unfold digits in Hd. pose proof Hd as Hd0. cbn [digits_acc] in Hd.
  destruct (digit_of a) as [d0|] eqn:Ha; [|discriminate].
  unfold number_literal.
  rewrite (digit_is_not a "-" d0 Ha eq_refl), (digit_is_not a "+" d0 Ha eq_refl).
  unfold unsigned_literal. rewrite (digits_acc_split_dot _ _ _ Hd0), H0.
  reflexivity.
Qed.

Lemma keep_masked_filter (d : decimal) (f : list cell -> cell) (l : list (list cell))
      (mask : list bool) :
  rmap (fun r => ge_mask d (f r)) l = Ok mask ->
  keep_masked l mask = filter (fun r => year_at_least d (f r)) l.
Proof.
  revert mask. induction l as [|r l IH]; intros mask H; simpl in *.
  - inversion H. reflexivity.
  - destruct (ge_mask d (f r)) as [b|e] eqn:Hm; cbn [rbind] in H; [|discriminate].
    destruct (rmap (fun r => ge_mask d (f r)) l) as [bs|e] eqn:Hr;
      cbn [rbind] in H; [|discriminate].
    inversion H; subst mask. cbn [keep_masked].
    rewrite (IH bs eq_refl).
    destruct (f r) as [y|s|]; simpl in Hm; inversion Hm; subst; reflexivity.
Qed.

Lemma query_ge_Ok (df : DataFrame) (name lit : string) (kept : DataFrame) :
  query_ge df name lit = Ok kept ->
  exists d,
    is_name name = true /\
    In name (columns df) /\
    number_literal lit = Some d /\
    columns kept = columns df /\
    rows kept = filter (fun r => year_at_least d (getcell name (columns df) r)) (rows df).
Proof.
  unfold query_ge. intros H.
  destruct (is_name name) eqn:Hn; [|discriminate].
  destruct (has_label (columns df) name) eqn:Hl; [|discriminate].
  destruct (number_literal lit) as [d|]; [|destruct (is_name lit); discriminate].
  destruct (rmap _ (rows df)) as [mask|e] eqn:Hr; cbn [rbind] in H; [|discriminate].
  inversion H; subst kept. exists d. cbn [columns rows].
  split; [reflexivity|]. split; [now apply has_label_In|].
  split; [reflexivity|]. split; [reflexivity|].
  exact (keep_masked_filter d (getcell name (columns df)) (rows df) mask Hr).
Qed.

Lemma query_ge_total (df : DataFrame) (name lit : string) (d : decimal) :
  is_name name = true ->
  In name (columns df) ->
  number_literal lit = Some d ->
  (forall r s, In r (rows df) -> getcell name (columns df) r <> Str s) ->
  exists kept, query_ge df name lit = Ok kept.
Proof.
  intros Hn Hin Hlit Htext. unfold query_ge.
  rewrite Hn, (proj2 (has_label_In _ _) Hin), Hlit.
  destruct (rmap_total (fun r => ge_mask d (getcell name (columns df) r)) (rows df))
    as [mask Hmask].
  - intros r Hr. specialize (Htext r).
    destruct (getcell name (columns df) r) as [y|s|]; simpl; eauto.
    exfalso. exact (Htext s Hr eq_refl).
  - rewrite Hmask. eexists; reflexivity.
Qed.



Example year_filter_of_three_rows :
  report1_filtered decimal_text Scenario.source Scenario.three_rows =
  Ok (mkDF (src_columns Scenario.source)
           [ [Num 2016; Str "A"; Str "X"; Num 10];
             [Num 2016; Str "A"; Str "X"; Num 0] ]).
Proof. reflexivity. Qed.

Example year_filter_with_other_thresholds :
  report1_filtered decimal_text (Cases.source_since "-5") Scenario.three_rows =
  Ok (mkDF (src_columns Scenario.source)
           [ [Num 2016; Str "A"; Str "X"; Num 10];
             [Num 2016; Str "A"; Str "X"; Num 0];
             [Num 2014; Str "A"; Str "X"; Num 99] ]) /\
  report1_filtered decimal_text (Cases.source_since "2015.5") Scenario.three_rows =
  Ok (mkDF (src_columns Scenario.source)
           [ [Num 2016; Str "A"; Str "X"; Num 10];
             [Num 2016; Str "A"; Str "X"; Num 0] ]).
Proof. split; reflexivity. Qed.

(** ** Groups *)

Lemma insert_key_perm (k : list cell) (ks : list (list cell)) :
  Permutation (k :: ks) (insert_key k ks).
Proof.
  induction ks as [|k' ks IH]; simpl; [reflexivity|].
  destruct (key_leb k k'); [reflexivity|].
  rewrite perm_swap. now apply perm_skip.
Qed.

Lemma sort_keys_perm (ks : list (list cell)) : Permutation ks (sort_keys ks).
Proof.
  induction ks as [|k ks IH]; simpl; [reflexivity|].
  rewrite <- insert_key_perm. now apply perm_skip.
Qed.

Lemma fold_min_spec (zs : list Z) (z : Z) :
  In (fold_left Z.min zs z) (z :: zs) /\
  forall x, In x (z :: zs) -> (fold_left Z.min zs z <= x)%Z.
Proof.
  revert z. induction zs as [|a zs IH]; intros z; cbn [fold_left].
  - split; [now left | intros x [<-|[]]; lia].
  - destruct (IH (Z.min z a)) as [Hin Hle]. split.
    + destruct Hin as [H|H]; [|right; now right].
      rewrite <- H. destruct (Z.min_spec z a) as [[_ ->]|[_ ->]];
        [now left | right; now left].
    + pose proof (Hle (Z.min z a) (or_introl eq_refl)) as H0.
      intros x [<-|[<-|Hx]]; [lia | lia | apply Hle; now right].
Qed.

Lemma fold_max_spec (zs : list Z) (z : Z) :
  In (fold_left Z.max zs z) (z :: zs) /\
  forall x, In x (z :: zs) -> (x <= fold_left Z.max zs z)%Z.
Proof.
  revert z. induction zs as [|a zs IH]; intros z; cbn [fold_left].
  - split; [now left | intros x [<-|[]]; lia].
  - destruct (IH (Z.max z a)) as [Hin Hle]. split.
    + destruct Hin as [H|H]; [|right; now right].
      rewrite <- H. destruct (Z.max_spec z a) as [[_ ->]|[_ ->]];
        [right; now left | now left].
    + pose proof (Hle (Z.max z a) (or_introl eq_refl)) as H0.
      intros x [<-|[<-|Hx]]; [lia | lia | apply Hle; now right].
Qed.

Lemma numbers_of_numbers (s : Series) :
  (forall c, In c s -> exists z, c = Num z) ->
  exists zs, numbers s = Ok zs /\ s = map Num zs.
Proof.
  induction s as [|c s IH]; intros H.
  - exists []. split; reflexivity.
  - destruct (H c (or_introl eq_refl)) as [z ->].
    destruct IH as [zs [Hn Hs]]; [intros; apply H; now right|].
    exists (z :: zs). cbn [numbers]. rewrite Hn. split; [reflexivity|].
    cbn [map]. now rewrite <- Hs.
Qed.

Lemma In_Num_map (v : Z) (zs : list Z) : In (Num v) (map Num zs) <-> In v zs.
Proof.
  rewrite in_map_iff. split.
  - intros [x [Hx Hin]]. inversion Hx. now subst.
  - intros Hin. exists v. now split.
Qed.

Lemma series_min_max_spec (s : Series) :
  s <> [] ->
  (forall c, In c s -> exists z, c = Num z) ->
  exists lo hi,
    series_min s = Ok (Num lo) /\ series_max s = Ok (Num hi) /\
    In (Num lo) s /\ In (Num hi) s /\
    forall v, In (Num v) s -> (lo <= v <= hi)%Z.
Proof.
  intros Hne Hnum. destruct (numbers_of_numbers s Hnum) as [zs [Hn Hs]].
  destruct zs as [|z zs]; [simpl in Hs; congruence|].
  destruct (fold_min_spec zs z) as [Hmin_in Hmin_le].
  destruct (fold_max_spec zs z) as [Hmax_in Hmax_le].
  exists (fold_left Z.min zs z), (fold_left Z.max zs z).
  unfold series_min, series_max. rewrite Hn. cbn [rbind].
  split; [reflexivity|]. split; [reflexivity|].
  rewrite Hs. rewrite !In_Num_map.
  split; [assumption|]. split; [assumption|].
  intros v Hv. apply In_Num_map in Hv. split; [now apply Hmin_le | now apply Hmax_le].
Qed.

Lemma same_key_true (k1 k2 : list cell) : same_key k1 k2 = true <-> k1 = k2.
Proof.
  unfold same_key. destruct (key_eq_dec k1 k2); split; congruence.
Qed.

Lemma Forall2_impl_In {A B : Type} (P Q : A -> B -> Prop) (l : list A) (l' : list B) :
  (forall a b, In a l -> P a b -> Q a b) -> Forall2 P l l' -> Forall2 Q l l'.
Proof.
  intros H F. induction F as [|a b l l' Hab F IH]; constructor.
  - apply H; [now left | assumption].
  - apply IH. intros; apply H; [now right | assumption].
Qed.

Lemma shown_cells_incl (keys : list string) (k : list cell) :
  incl (shown_cells keys k) k.
Proof.
  revert k. induction keys as [|l keys IH]; intros [|c k]; cbn [shown_cells];
    try apply incl_nil_l.
  destruct (has_label aggregate_labels l).
  - apply incl_tl, IH.
  - apply incl_cons; [now left | apply incl_tl, IH].
Qed.

Lemma shown_cells_length (keys : list string) (k : list cell) :
  List.length k = List.length keys ->
  List.length (shown_cells keys k) = List.length (shown_labels keys).
Proof.
  revert k. induction keys as [|l keys IH]; intros [|c k] H; try discriminate;
    [reflexivity|].
  cbn [shown_cells shown_labels filter]. injection H as H.
  destruct (has_label aggregate_labels l); cbn [negb List.length];
    fold (shown_labels keys); now rewrite (IH k H).
Qed.

Lemma shown_all (keys : list string) :
  (forall l, In l keys -> has_label aggregate_labels l = false) ->
  shown_labels keys = keys /\
  forall k, List.length k = List.length keys -> shown_cells keys k = k.
Proof.
  induction keys as [|l keys IH]; intros H.
  - split; [reflexivity|]. intros [|c k] Hk; [reflexivity | discriminate].
  - destruct IH as [IH1 IH2]; [intros; apply H; now right|].
    pose proof (H l (or_introl eq_refl)) as Hl. split.
    + cbn [shown_labels filter]. rewrite Hl. cbn [negb]. fold (shown_labels keys).
      now rewrite IH1.
    + intros [|c k] Hk; [discriminate|]. cbn [shown_cells]. rewrite Hl.
      injection Hk as Hk. now rewrite (IH2 k Hk).
Qed.

(** The row that the aggregation makes for the group of the key [k]. *)
Definition exact_row (keys : list string) (key_of : list cell -> list cell)
           (value_of : list cell -> cell) (rs : list (list cell))
           (k out : list cell) : Prop :=
  exists lo hi,
    out = shown_cells keys k ++ [Num lo; Num hi] /\
    (exists r, In r rs /\ key_of r = k /\ value_of r = Num lo) /\
    (exists r, In r rs /\ key_of r = k /\ value_of r = Num hi) /\
    (forall r, In r rs -> key_of r = k ->
               exists v, value_of r = Num v /\ (lo <= v <= hi)%Z).

Lemma exact_row_group_row (keys : list string) (key_of : list cell -> list cell)
      (value_of : list cell -> cell) (rs : list (list cell)) (k out : list cell) :
  exact_row keys key_of value_of rs k out -> group_row key_of value_of rs k out.
Proof.
  intros [lo [hi [H1 [H2 [H3 H4]]]]]. exists (shown_cells keys k), lo, hi.
  split; [assumption|]. split; [apply shown_cells_incl|]. tauto.
Qed.

Lemma groupby_min_max_Ok (df : DataFrame) (keys : list string) (value : string)
      (g : DataFrame) :
  groupby_min_max df keys value = Ok g ->
  (forall r, In r (rows df) -> exists z, getcell value (columns df) r = Num z) ->
  columns g = shown_labels keys ++ aggregate_labels /\
  exists groups,
    NoDup groups /\
    (forall k, In k groups <->
               exists r, In r (rows df) /\ row_key keys (columns df) r = k /\
                         existsb is_nan k = false) /\
    Forall2 (exact_row keys (row_key keys (columns df)) (getcell value (columns df))
                       (rows df))
            groups (rows g).
Proof.
  unfold groupby_min_max. intros H Hnum.
  destruct (check_groupers (columns df) keys) as [[]|e]; [|discriminate].
  destruct (check_aggregated (columns df) value) as [[]|e]; [|discriminate].
  destruct (check_output_labels keys) as [[]|e]; [|discriminate].
  cbn [rbind] in H.
  set (key_of := row_key keys (columns df)) in *.
  set (kept := filter (fun r => negb (existsb is_nan (key_of r))) (rows df)) in *.
  set (groups := sort_keys (nodup key_eq_dec (map key_of kept))) in *.
  destruct (rmap _ groups) as [out|e] eqn:Hr; [|discriminate].
  cbn [rbind] in H. inversion H; subst g; clear H. cbn [columns rows].
  split; [reflexivity|].
  assert (Hkept : forall r, In r kept <->
                            In r (rows df) /\ existsb is_nan (key_of r) = false).
  { intros r. unfold kept. rewrite filter_In, negb_true_iff. tauto. }
  assert (Hgroups : forall k, In k groups <->
                              exists r, In r (rows df) /\ key_of r = k /\
                                        existsb is_nan k = false).
  { intros k. unfold groups.
    rewrite <- (Permutation_in' (eq_refl k) (sort_keys_perm _)).
    rewrite nodup_In, in_map_iff. split.
    - intros [r [Hk Hin]]. apply Hkept in Hin. exists r. subst k. tauto.
    - intros [r [Hin [Hk Hn]]]. exists r. split; [assumption|].
      apply Hkept. subst k. tauto. }
  exists groups. split.
  { unfold groups. eapply Permutation_NoDup; [apply sort_keys_perm|].
    apply NoDup_nodup. }
  split; [exact Hgroups|].
  apply rmap_Forall2 in Hr. revert Hr. apply Forall2_impl_In.
  intros k o Hk Hf.
  set (grp := filter (fun r => same_key (key_of r) k) kept) in *.
  assert (Hgrp : forall r, In r grp <-> In r (rows df) /\ key_of r = k).
  { intros r. unfold grp. rewrite filter_In, same_key_true, Hkept.
    apply Hgroups in Hk. destruct Hk as [r0 [_ [_ Hn]]].
    split; [tauto|]. intros [Hin Heq]. subst k. tauto. }
  destruct (series_min_max_spec (map (getcell value (columns df)) grp))
    as [lo [hi [Hlo [Hhi [Hlo_in [Hhi_in Hb]]]]]].
  { apply Hgroups in Hk. destruct Hk as [r [Hin [Heq _]]].
    assert (Hr' : In r grp) by (apply Hgrp; tauto).
    intros Hnil. apply (in_map (getcell value (columns df))) in Hr'.
    rewrite Hnil in Hr'. destruct Hr'. }
  { intros c Hc. apply in_map_iff in Hc. destruct Hc as [r [<- Hin]].
    apply Hnum. now apply Hgrp. }
  rewrite Hlo, Hhi in Hf. cbn [rbind] in Hf. inversion Hf; subst o; clear Hf.
  exists lo, hi. split; [reflexivity|].
  apply in_map_iff in Hlo_in. destruct Hlo_in as [rlo [Hvlo Hrlo]].
  apply in_map_iff in Hhi_in. destruct Hhi_in as [rhi [Hvhi Hrhi]].
  apply Hgrp in Hrlo. apply Hgrp in Hrhi.
  split; [exists rlo; tauto|]. split; [exists rhi; tauto|].
  intros r Hin Heq. destruct (Hnum r Hin) as [v Hv]. exists v.
  split; [assumption|]. apply Hb. rewrite <- Hv.
  apply in_map. apply Hgrp. tauto.
Qed.

(** ** The steps of report 1 on a frame that is not empty *)

Lemma distinct_labels_app (keys l : list string) :
  distinct_labels (keys ++ l) = true -> forall k, In k keys -> ~ In k l.
Proof.
  induction keys as [|k0 keys IH]; intros H k Hin; [destruct Hin|].
  cbn [app distinct_labels] in H. apply andb_true_iff in H. destruct H as [H1 H2].
  destruct Hin as [<-|Hin]; [|now apply IH].
  apply negb_true_iff, has_label_not_In in H1.
  intros Hl. apply H1. apply in_or_app. now right.
Qed.

Lemma renamed_other (a x b y label : string) :
  label <> a -> label <> b -> renamed [(a, x); (b, y)] label = label.
Proof.
  intros Ha Hb. cbn [renamed].
  destruct (String.eqb_spec a label); [congruence|].
  destruct (String.eqb_spec b label); [congruence|]. reflexivity.
Qed.

Lemma existsb_is_nan (k : list cell) : existsb is_nan k = false <-> ~ In NaN k.
Proof.
  split.
  - intros H Hin. assert (existsb is_nan k = true); [|congruence].
    apply existsb_exists. exists NaN. now split.
  - intros H. destruct (existsb is_nan k) eqn:E; [|reflexivity].
    apply existsb_exists in E. destruct E as [c [Hin Hc]].
    destruct c; try discriminate. contradiction.
Qed.

Lemma Forall2_In_r {A B : Type} (R : A -> B -> Prop) (l : list A) (l' : list B) (b : B) :
  Forall2 R l l' -> In b l' -> exists a, In a l /\ R a b.
Proof.
  intros F. induction F as [|a0 b0 l l' Hab F IH]; intros Hin; [destruct Hin|].
  destruct Hin as [<-|Hin].
  - exists a0. split; [now left | assumption].
  - destruct (IH Hin) as [a [Ha HR]]. exists a. split; [now right | assumption].
Qed.

Lemma Forall2_map_eq {A B : Type} (R : A -> B -> Prop) (f : B -> A)
      (l : list A) (l' : list B) :
  Forall2 R l l' -> (forall a b, In a l -> R a b -> f b = a) -> map f l' = l.
Proof.
  intros F. induction F as [|a b l l' Hab F IH]; intros H; [reflexivity|].
  cbn [map]. rewrite (H a b (or_introl eq_refl) Hab).
  rewrite IH; [reflexivity|]. intros; apply H; [now right | assumption].
Qed.

Lemma report1_filtered_values (p : string -> option Z) (src : DewpSourceConfig)
      (df kept : DataFrame) :
  report1_filtered p src df = Ok kept ->
  forall r, In r (rows kept) ->
            exists z, getcell (src_col_value src) (columns kept) r = Num z.
Proof.
  unfold report1_filtered. intros H.
  destruct (report1_coerced p src df) as [coerced|e] eqn:Hc; [|discriminate].
  cbn [rbind] in H.
  destruct (query_ge_Ok _ _ _ _ H) as [t [_ [_ [_ [Hcols Hrows]]]]].
  destruct (report1_coerced_inv p src df coerced Hc) as [projected [Hloc Hocc]].
  rewrite (report1_coerced_rows p src df projected Hloc Hocc) in Hc.
  inversion Hc; subst coerced; clear Hc. cbn [columns rows] in *.
  intros r Hr. rewrite Hrows in Hr. apply filter_In in Hr. destruct Hr as [Hr _].
  apply in_map_iff in Hr. destruct Hr as [r0 [<- _]].
  rewrite Hcols. unfold coerced_row. rewrite getcell_put_same.
  - apply coerced_value_is_number.
  - apply occurrences_pos. rewrite Hocc. discriminate.
Qed.

Lemma shown_labels_not_aggregate (keys : list string) (l : string) :
  In l (shown_labels keys) -> In l keys /\ l <> "min_value" /\ l <> "max_value".
Proof.
  unfold shown_labels. rewrite filter_In, negb_true_iff, has_label_not_In.
  intros [H1 H2]. split; [assumption|].
  split; intros ->; apply H2; cbn; tauto.
Qed.

Lemma renamed_shown_labels (keys : list string) (x y : string) :
  map (renamed [("min_value", x); ("max_value", y)]) (shown_labels keys)
  = shown_labels keys.
Proof.
  rewrite <- (map_id (shown_labels keys)) at 2. apply map_ext_in. intros l Hl.
  destruct (shown_labels_not_aggregate keys l Hl) as [_ [H1 H2]].
  now apply renamed_other.
Qed.

Lemma report1_steps_Ok (p : string -> option Z) (etl : DewpETL) (df out : DataFrame) :
  report1_steps p etl df = Ok out ->
  exists kept,
    report1_filtered p (src_args etl) df = Ok kept /\
    columns out =
      shown_labels (report1_keys (src_args etl))
        ++ [trg_col_min_value (trg_args etl); trg_col_max_value (trg_args etl)] /\
    exists groups,
      NoDup groups /\
      (forall k, In k groups <->
                 exists r, In r (rows kept) /\
                           row_key (report1_keys (src_args etl)) (columns kept) r = k /\
                           existsb is_nan k = false) /\
      Forall2 (exact_row (report1_keys (src_args etl))
                         (row_key (report1_keys (src_args etl)) (columns kept))
                         (getcell (src_col_value (src_args etl)) (columns kept))
                         (rows kept))
              groups (rows out).
Proof.
  unfold report1_steps. intros H.
  destruct (report1_filtered p (src_args etl) df) as [kept|e] eqn:Hk; [|discriminate].
  cbn [rbind] in H.
  destruct (groupby_min_max kept (report1_keys (src_args etl))
                            (src_col_value (src_args etl))) as [g|e] eqn:Hg;
    [|discriminate].
  cbn [rbind] in H. inversion H; subst out; clear H.
  destruct (groupby_min_max_Ok _ _ _ _ Hg (report1_filtered_values p _ df kept Hk))
    as [Hcols [groups [Hnd [Hin HF]]]].
  exists kept. split; [reflexivity|]. split.
  - cbn [rename_columns columns]. rewrite Hcols, map_app, renamed_shown_labels.
    reflexivity.
  - exists groups. cbn [rename_columns rows]. tauto.
Qed.

Lemma keys_all_shown (keys : list string) :
  distinct_labels (keys ++ aggregate_labels) = true ->
  forall l, In l keys -> has_label aggregate_labels l = false.
Proof.
  intros Hd l Hl. apply has_label_not_In. exact (distinct_labels_app _ _ Hd l Hl).
Qed.

Lemma exact_row_full_row (src : DewpSourceConfig) (cols : list string)
      (value_of : list cell -> cell) (rs : list (list cell)) (k o : list cell) :
  distinct_labels (report1_keys src ++ aggregate_labels) = true ->
  exact_row (report1_keys src) (row_key (report1_keys src) cols) value_of rs k o ->
  full_row k o /\ group_key o = k.
Proof.
  intros Hd [lo [hi [-> [[r [_ [<- _]]] _]]]].
  destruct (shown_all _ (keys_all_shown _ Hd)) as [_ Hcells].
  rewrite Hcells by (unfold row_key; now rewrite length_map).
  split; [exists lo, hi; reflexivity | reflexivity].
Qed.

Lemma transform_report1_outcome (p : string -> option Z) (etl : DewpETL) (df : DataFrame) :
  empty df = false ->
  outcome (transform_report1 p etl df) = report1_steps p etl df.
Proof.
  intros H. rewrite (transform_report1_nonempty p etl df H).
  destruct (report1_steps p etl df); reflexivity.
Qed.

(** C1, amended: when [transform_report1] returns on a frame that is not
    empty, its rows stand one to one, in order, for the distinct triples
    (year, industry aggregation, industry code) of the rows kept by the
    year filter in which no key is missing: the list of these triples has
    no repetition, holds every such triple and nothing else, and the rows
    of the report follow it position by position.  The row of a triple
    ends with the least and the greatest coerced value of the rows of the
    triple, both attained; before them stand cells of the triple, and the
    whole triple when no key is labelled like an aggregate and the three
    key labels differ. *)
Theorem report1_one_row_per_group
  (p : string -> option Z) (etl : DewpETL) (df kept out : DataFrame) :
  empty df = false ->
  report1_filtered p (src_args etl) df = Ok kept ->
  outcome (transform_report1 p etl df) = Ok out ->
  exists groups,
    NoDup groups /\
    (forall k, In k groups <->
               exists r, In r (rows kept) /\
                         row_key (report1_keys (src_args etl)) (columns kept) r = k /\
                         ~ In NaN k) /\
    Forall2 (group_row (row_key (report1_keys (src_args etl)) (columns kept))
                       (getcell (src_col_value (src_args etl)) (columns kept))
                       (rows kept))
            groups (rows out) /\
    (distinct_labels (report1_keys (src_args etl) ++ aggregate_labels) = true ->
     Forall2 full_row groups (rows out) /\ map group_key (rows out) = groups).
Proof.
  intros Hne Hkept Hout. rewrite (transform_report1_outcome p etl df Hne) in Hout.
  destruct (report1_steps_Ok p etl df out Hout)
    as [kept' [Hk [_ [groups [Hnd [Hin HF]]]]]].
  rewrite Hkept in Hk. inversion Hk; subst kept'; clear Hk.
  exists groups. split; [assumption|]. split; [|split].
  - intros k. rewrite Hin. split; intros [r [H1 [H2 H3]]]; exists r;
      (split; [assumption|]); (split; [assumption|]); now apply existsb_is_nan.
  - revert HF. apply Forall2_impl_In. intros k o _. apply exact_row_group_row.
  - intros Hd. split.
    + revert HF. apply Forall2_impl_In. intros k o _ Hg.
      exact (proj1 (exact_row_full_row _ _ _ _ _ _ Hd Hg)).
    + apply (Forall2_map_eq _ group_key _ _ HF). intros k o _ Hg.
      exact (proj2 (exact_row_full_row _ _ _ _ _ _ Hd Hg)).
Qed.

Lemma report1_one_row_per_group_witness :
  exists groups,
    NoDup groups /\
    (forall k, In k groups <->
               exists r, In r [ [Num 2016; Str "A"; Str "X"; Num 10];
                                [Num 2016; Str "A"; Str "X"; Num 0] ] /\
                         row_key (report1_keys Scenario.source)
                                 (src_columns Scenario.source) r = k /\
                         ~ In NaN k) /\
    Forall2 (group_row (row_key (report1_keys Scenario.source)
                                (src_columns Scenario.source))
                       (getcell "Value" (src_columns Scenario.source))
                       [ [Num 2016; Str "A"; Str "X"; Num 10];
                         [Num 2016; Str "A"; Str "X"; Num 0] ])
            groups [[Num 2016; Str "A"; Str "X"; Num 0; Num 10]] /\
    (distinct_labels (report1_keys Scenario.source ++ aggregate_labels) = true ->
     Forall2 full_row groups [[Num 2016; Str "A"; Str "X"; Num 0; Num 10]] /\
     map group_key [[Num 2016; Str "A"; Str "X"; Num 0; Num 10]] = groups).
Proof.
  apply (report1_one_row_per_group decimal_text (Scenario.etl []) Scenario.three_rows
           (mkDF (src_columns Scenario.source)
                 [ [Num 2016; Str "A"; Str "X"; Num 10];
                   [Num 2016; Str "A"; Str "X"; Num 0] ])
           (mkDF ["Year"; "Industry_aggregation_NZSIOC"; "Industry_code_NZSIOC";
                  "min_value"; "max_value"]
                 [[Num 2016; Str "A"; Str "X"; Num 0; Num 10]])).
  - reflexivity.
  - reflexivity.
  - vm_compute. reflexivity.
Defined.

(** C1 as stated fails: two rows pass the year filter with two distinct
    triples, (2016, A, X) and (2016, missing, X); the report has the row
    of the first and no row for the second, whose industry aggregation is
    missing. *)
Lemma report1_missing_key_has_no_row :
  report1_filtered decimal_text Scenario.source
    (mkDF Scenario.header
          [[Num 2016; Str "A"; Str "X"; Str "Dollars"; Str "10"];
           [Num 2016; NaN; Str "X"; Str "Dollars"; Str "7"]]) =
  Ok (mkDF (src_columns Scenario.source)
           [[Num 2016; Str "A"; Str "X"; Num 10];
            [Num 2016; NaN; Str "X"; Num 7]]) /\
  outcome (transform_report1 decimal_text (Scenario.etl [])
             (mkDF Scenario.header
                   [[Num 2016; Str "A"; Str "X"; Str "Dollars"; Str "10"];
                    [Num 2016; NaN; Str "X"; Str "Dollars"; Str "7"]])) =
  Ok (mkDF ["Year"; "Industry_aggregation_NZSIOC"; "Industry_code_NZSIOC";
            "min_value"; "max_value"]
           [[Num 2016; Str "A"; Str "X"; Num 10; Num 10]]).
Proof. split; vm_compute; reflexivity. Qed.

(** C9: when [transform_report1] returns a frame that is not empty, the
    last two columns of the frame are the target names of the minimum and
    of the maximum, and in every row the cell under the first of them is a
    number at most the number under the second.  The columns before them
    are key labels, and the three keys in their order when no key is
    labelled like an aggregate and the three key labels differ. *)
Theorem report1_min_le_max
  (p : string -> option Z) (etl : DewpETL) (df out : DataFrame) :
  outcome (transform_report1 p etl df) = Ok out ->
  empty out = false ->
  exists labels,
    columns out =
      labels ++ [trg_col_min_value (trg_args etl); trg_col_max_value (trg_args etl)] /\
    incl labels (report1_keys (src_args etl)) /\
    (distinct_labels (report1_keys (src_args etl) ++ aggregate_labels) = true ->
     labels = report1_keys (src_args etl)) /\
    forall o, In o (rows out) ->
              exists k lo hi,
                o = k ++ [Num lo; Num hi] /\
                List.length k = List.length labels /\
                (lo <= hi)%Z.
Proof.
  intros Hout Hne.
  destruct (empty df) eqn:He.
  - unfold transform_report1 in Hout. rewrite He in Hout.
    inversion Hout; subst out. congruence.
  - rewrite (transform_report1_outcome p etl df He) in Hout.
    destruct (report1_steps_Ok p etl df out Hout)
      as [kept [Hk [Hcols [groups [Hnd [Hin HF]]]]]].
    exists (shown_labels (report1_keys (src_args etl))).
    split; [exact Hcols|]. split.
    { intros l Hl. exact (proj1 (shown_labels_not_aggregate _ _ Hl)). }
    split.
    { intros Hd. exact (proj1 (shown_all _ (keys_all_shown _ Hd))). }
    intros o Ho. destruct (Forall2_In_r _ _ _ _ HF Ho) as [k [_ Hg]].
    destruct Hg as [lo [hi [-> [[r [Hr [<- Hv]]] [_ Hb]]]]].
    destruct (Hb r Hr eq_refl) as [v [Hv' Hle]].
    do 3 eexists. split; [reflexivity|]. split.
    + apply shown_cells_length. unfold row_key. now rewrite length_map.
    + rewrite Hv in Hv'. inversion Hv'; subst v. lia.
Qed.

Lemma report1_min_le_max_witness :
  exists labels,
    ["Year"; "Industry_aggregation_NZSIOC"; "Industry_code_NZSIOC";
     "min_value"; "max_value"] = labels ++ ["min_value"; "max_value"] /\
    incl labels (report1_keys Scenario.source) /\
    (distinct_labels (report1_keys Scenario.source ++ aggregate_labels) = true ->
     labels = report1_keys Scenario.source) /\
    forall o, In o [[Num 2016; Str "A"; Str "X"; Num 0; Num 10]] ->
              exists k lo hi,
                o = k ++ [Num lo; Num hi] /\
                List.length k = List.length labels /\
                (lo <= hi)%Z.
Proof.
  apply (report1_min_le_max decimal_text (Scenario.etl []) Scenario.three_rows
           (mkDF ["Year"; "Industry_aggregation_NZSIOC"; "Industry_code_NZSIOC";
                  "min_value"; "max_value"]
                 [[Num 2016; Str "A"; Str "X"; Num 0; Num 10]])).
  - vm_compute. reflexivity.
  - reflexivity.
Defined.

(** A key labelled like an aggregate, and the value column as a key: the
    key labelled [min_value] is not put back, the minimum stands under
    its label; a value column that is a key is grouped by its coerced
    cells. *)
Example report_with_a_key_labelled_min_value :
  outcome (transform_report1 decimal_text
             {| s3_bucket_src := Scenario.bucket [];
                s3_bucket_trg := Scenario.bucket [];
                src_args := {| src_columns := ["Year"; "min_value"; "Code"; "Value"];
                               src_col_year := "Year";
                               src_col_industry_aggregation_knzsioc := "min_value";
                               src_col_industry_code_nzsioc := "Code";
                               src_col_value := "Value";
                               src_col_year_filter := "2015";
                               src_files_prefix := "annual";
                               src_format := "csv" |};
                trg_args := Scenario.target |}
             (mkDF ["Year"; "min_value"; "Code"; "Value"]
                   [[Num 2016; Str "B"; Str "X"; Num 5];
                    [Num 2016; Str "A"; Str "Y"; Num 7]])) =
  Ok (mkDF ["Year"; "Code"; "min_value"; "max_value"]
           [[Num 2016; Str "Y"; Num 7; Num 7];
            [Num 2016; Str "X"; Num 5; Num 5]]).
Proof. vm_compute. reflexivity. Qed.

Example report_with_the_value_column_as_key :
  outcome (transform_report1 decimal_text
             {| s3_bucket_src := Scenario.bucket [];
                s3_bucket_trg := Scenario.bucket [];
                src_args := {| src_columns := ["Year"; "Value"; "Code"];
                               src_col_year := "Year";
                               src_col_industry_aggregation_knzsioc := "Value";
                               src_col_industry_code_nzsioc := "Code";
                               src_col_value := "Value";
                               src_col_year_filter := "2015";
                               src_files_prefix := "annual";
                               src_format := "csv" |};
                trg_args := Scenario.target |}
             (mkDF ["Year"; "Value"; "Code"]
                   [[Num 2016; Str "5"; Str "X"]])) =
  Ok (mkDF ["Year"; "Value"; "Code"; "min_value"; "max_value"]
           [[Num 2016; Num 5; Str "X"; Num 5; Num 5]]).
Proof. vm_compute. reflexivity. Qed.

(** ** The whole job *)

Lemma trace_pbind {A B : Type} (m : prog A) (k : A -> prog B) :
  trace (pbind m k) =
  trace m ++ match outcome m with
             | Ok a => trace (k a)
             | Raise _ => []
             end.
Proof.
  destruct m as [t [a|e]]; cbn [pbind trace outcome fst snd].
  - destruct (k a); reflexivity.
  - now rewrite app_nil_r.
Qed.

Lemma outcome_pbind {A B : Type} (m : prog A) (k : A -> prog B) :
  outcome (pbind m k) =
  match outcome m with
  | Ok a => outcome (k a)
  | Raise e => Raise e
  end.
Proof.
  destruct m as [t [a|e]]; cbn [pbind trace outcome fst snd]; [|reflexivity].
  destruct (k a); reflexivity.
Qed.

Lemma writes_app (t1 t2 : list event) : writes (t1 ++ t2) = writes t1 ++ writes t2.
Proof. unfold writes. apply flat_map_app. Qed.

Lemma pmap_reads_no_write (s3 : S3BucketConnector) (files : list string) :
  writes (trace (pmap (call_read_csv s3) files)) = [].
Proof.
  induction files as [|f files IH]; [reflexivity|].
  cbn [pmap]. rewrite trace_pbind, writes_app.
  cbn [call_read_csv perform trace outcome fst snd].
  destruct (read_csv_to_df s3 f) as [d|e]; [|reflexivity].
  rewrite trace_pbind, writes_app, IH.
  destruct (outcome (pmap (call_read_csv s3) files)); reflexivity.
Qed.

Lemma extract_no_write (etl : DewpETL) : writes (trace (extract etl)) = [].
Proof.
  unfold extract. rewrite trace_pbind, writes_app.
  cbn [log_info perform trace outcome fst snd].
  rewrite trace_pbind, writes_app.
  cbn [call_list_files perform trace outcome fst snd].
  destruct (list_files_in_prefix _ _) as [files|e]; [|reflexivity].
  rewrite trace_pbind, writes_app.
  assert (Hread : writes (trace (match files with
                                 | [] => pret DataFrame_new
                                 | _ :: _ =>
                                     (frames <- pmap (call_read_csv (s3_bucket_src etl)) files ;;
                                      lift (concat frames))%prog
                                 end)) = []).
  { destruct files as [|f files]; [reflexivity|].
    rewrite trace_pbind, writes_app, pmap_reads_no_write.
    destruct (outcome (pmap _ (f :: files))); reflexivity. }
  rewrite Hread.
  match goal with
  | |- context [match outcome ?m with _ => _ end] => destruct (outcome m)
  end; reflexivity.
Qed.

(** When the transformation raises, the job raises the same exception and
    has written nothing: [load] is not reached. *)
Lemma etl_report1_no_write_on_failure
      (p : string -> option Z) (today : datetime) (etl : DewpETL)
      (df : DataFrame) (e : exn) :
  outcome (extract etl) = Ok df ->
  outcome (transform_report1 p etl df) = Raise e ->
  outcome (etl_report1 p today etl) = Raise e /\
  writes (trace (etl_report1 p today etl)) = [].
Proof.
  intros Hx Ht. unfold etl_report1. split.
  - rewrite outcome_pbind, Hx, outcome_pbind, Ht. reflexivity.
  - rewrite trace_pbind, writes_app, extract_no_write, Hx.
    rewrite trace_pbind, writes_app, Ht.
    unfold transform_report1.
    destruct (empty df); [reflexivity|].
    rewrite trace_pbind, writes_app. cbn [log_info perform trace outcome fst snd].
    rewrite trace_pbind, writes_app. cbn [lift trace outcome fst snd].
    destruct (report1_steps p etl df); reflexivity.
Qed.

(** No file under the prefix: the frame without rows and columns goes
    through the transformation untouched and is written under the key of
    the day. *)
Example etl_report1_without_files :
  etl_report1 decimal_text Scenario.execution_date (Scenario.etl []) =
  ([LogInfo "Extracting Dewp source files started..."; ListFiles "annual";
    LogInfo "Extracting Dewp source files finished.";
    LogInfo "The dataframe is empty. No transformations will be applied.";
    WriteDf (mkDF [] []) "report1_20240301.parquet" "parquet";
    LogInfo "Dewp target data successfully written."],
   Ok true).
Proof. reflexivity. Qed.

(** * Further properties of the component *)

(** ** Extract: the files that are read *)

Lemma pmap_reads_all (s3 : S3BucketConnector) (files : list string)
      (frames : list DataFrame) :
  Forall2 (fun f d => read_csv_to_df s3 f = Ok d) files frames ->
  pmap (call_read_csv s3) files = (map ReadCsv files, Ok frames).
Proof.
  intros F. induction F as [|f d files frames Hf F IH]; [reflexivity|].
  cbn [pmap]. rewrite IH. unfold call_read_csv, perform. rewrite Hf.
  cbn. now rewrite app_nil_r.
Qed.

Lemma distinct_labels_NoDup (l : list string) : distinct_labels l = true <-> NoDup l.
Proof.
  induction l as [|a l IH]; cbn [distinct_labels].
  - split; [constructor | reflexivity].
  - rewrite andb_true_iff, negb_true_iff, has_label_not_In, IH. split.
    + intros [H1 H2]. now constructor.
    + intros H. inversion H. tauto.
Qed.

Lemma concat_distinct_Ok (frames : list DataFrame) :
  frames <> [] ->
  (forall d, In d frames -> NoDup (columns d)) ->
  exists d, concat frames = Ok d.
Proof.
  destruct frames as [|d0 frames]; [congruence|]. intros _ H.
  unfold concat.
  destruct (forallb (fun df => same_labels (columns df) (columns d0)) (d0 :: frames));
    [eexists; reflexivity|].
  assert (Hd : forallb (fun df => distinct_labels (columns df)) (d0 :: frames) = true).
  { apply forallb_forall. intros d Hin. apply distinct_labels_NoDup. now apply H. }
  rewrite Hd. eexists; reflexivity.
Qed.

(** X1: when the listing is not empty, every listed file is read and the
    frame of each file has distinct labels, [extract] reads each listed
    file once, in the order of the listing, logs its two messages around
    the calls and returns the concatenation of the frames in that
    order. *)
Theorem extract_reads_every_file_once
  (etl : DewpETL) (files : list string) (frames : list DataFrame) :
  list_files_in_prefix (s3_bucket_src etl) (src_files_prefix (src_args etl)) = Ok files ->
  files <> [] ->
  Forall2 (fun f d => read_csv_to_df (s3_bucket_src etl) f = Ok d) files frames ->
  (forall d, In d frames -> NoDup (columns d)) ->
  extract etl =
  (LogInfo "Extracting Dewp source files started..."
     :: ListFiles (src_files_prefix (src_args etl))
     :: map ReadCsv files ++ [LogInfo "Extracting Dewp source files finished."],
   concat frames).
Proof.
  intros Hl Hne F Hnd. rewrite (extract_listed etl files Hl Hne).
  rewrite (pmap_reads_all _ _ _ F). cbn [pbind lift].
  destruct (concat_distinct_Ok frames) as [d Hd].
  { intros ->. inversion F. congruence. }
  { exact Hnd. }
  rewrite Hd. cbn. reflexivity.
Qed.

Lemma extract_reads_every_file_once_witness :
  extract (Scenario.etl [("annual_2016.csv", Ok Scenario.three_rows);
                         ("annual_2017.csv", Ok Scenario.three_rows)]) =
  (LogInfo "Extracting Dewp source files started..."
     :: ListFiles "annual"
     :: map ReadCsv ["annual_2016.csv"; "annual_2017.csv"]
     ++ [LogInfo "Extracting Dewp source files finished."],
   concat [Scenario.three_rows; Scenario.three_rows]).
Proof.
  apply (extract_reads_every_file_once
           (Scenario.etl [("annual_2016.csv", Ok Scenario.three_rows);
                          ("annual_2017.csv", Ok Scenario.three_rows)])
           ["annual_2016.csv"; "annual_2017.csv"]
           [Scenario.three_rows; Scenario.three_rows]).
  - reflexivity.
  - discriminate.
  - repeat constructor.
  - intros d [<-|[<-|[]]]; repeat constructor; cbn [In]; intuition discriminate.
Defined.

Lemma In_firstn_In {A : Type} (n : nat) (l : list A) (a : A) :
  In a (firstn n l) -> In a l.
Proof.
  revert l. induction n as [|n IH]; intros [|b l] H; try destruct H.
  - now left.
  - right. now apply IH.
Qed.

Lemma pmap_reads_trace (s3 : S3BucketConnector) (files : list string) :
  exists n, trace (pmap (call_read_csv s3) files) = map ReadCsv (firstn n files).
Proof.
  induction files as [|f files [n IH]].
  - exists O. reflexivity.
  - cbn [pmap]. rewrite trace_pbind.
    cbn [call_read_csv perform trace outcome fst snd].
    destruct (read_csv_to_df s3 f) as [d|e].
    + exists (S n). rewrite trace_pbind, IH. cbn [firstn map app].
      destruct (outcome (pmap (call_read_csv s3) files));
        cbn [pret trace fst]; now rewrite app_nil_r.
    + exists 1%nat. reflexivity.
Qed.

(** X2: whatever the connector answers, [extract] writes nothing, and the
    only keys it reads are keys the listing returned. *)
Theorem extract_only_reads_listed_files (etl : DewpETL) :
  writes (trace (extract etl)) = [] /\
  forall key, In (ReadCsv key) (trace (extract etl)) ->
              exists files,
                list_files_in_prefix (s3_bucket_src etl)
                                     (src_files_prefix (src_args etl)) = Ok files /\
                In key files.
Proof.
  split; [apply extract_no_write|].
  intros key. unfold extract.
  rewrite trace_pbind. cbn [log_info perform trace outcome fst snd].
  rewrite trace_pbind. cbn [call_list_files perform trace outcome fst snd].
  destruct (list_files_in_prefix _ _) as [files|e].
  - intros Hin. exists files. split; [reflexivity|].
    rewrite trace_pbind in Hin.
    assert (Hreads : forall ev,
               In ev (trace (match files with
                             | [] => pret DataFrame_new
                             | _ :: _ =>
                                 (frames <- pmap (call_read_csv (s3_bucket_src etl)) files ;;
                                  lift (concat frames))%prog
                             end)) ->
               exists f, In f files /\ ev = ReadCsv f).
    { destruct files as [|f files]; [intros ev []|].
      intros ev Hev. rewrite trace_pbind in Hev.
      destruct (pmap_reads_trace (s3_bucket_src etl) (f :: files)) as [n Hn].
      rewrite Hn in Hev.
      assert (Hev' : In ev (map ReadCsv (firstn n (f :: files)))).
      { apply in_app_or in Hev. destruct Hev as [H|H]; [exact H|].
        destruct (outcome (pmap _ (f :: files))); destruct H. }
      apply in_map_iff in Hev'. destruct Hev' as [g [<- Hg]].
      exists g. split; [|reflexivity]. exact (In_firstn_In n _ _ Hg). }
    cbn [app] in Hin. destruct Hin as [H|[H|H]]; try discriminate.
    apply in_app_or in H. destruct H as [H|H].
    + destruct (Hreads _ H) as [f [Hf Heq]]. inversion Heq. now subst.
    + match type of H with
      | In _ (match outcome ?m with _ => _ end) => destruct (outcome m)
      end; [|destruct H].
      rewrite trace_pbind in H. cbn in H. destruct H as [H|[]]. discriminate.
  - cbn. intros [H|[H|[]]]; discriminate.
Qed.

(** ** Extract: files with one header *)

Lemma select_absent (label : string) (cols : list string) (row : list cell) :
  ~ In label cols -> select label cols row = [].
Proof.
  revert row. induction cols as [|c cols IH]; intros row H; [reflexivity|].
  cbn [select]. destruct (String.eqb_spec c label) as [->|_].
  - exfalso. apply H. now left.
  - apply IH. intros Hin. apply H. now right.
Qed.

Lemma relayout_same_header (header : list string) (r : list cell) :
  NoDup header ->
  List.length r = List.length header ->
  map (fun c => if has_label header c then getcell c header r else NaN) header = r.
Proof.
  intros Hnd. revert r. induction Hnd as [|c0 cs Hnotin Hnd IH]; intros r Hlen.
  - destruct r; [reflexivity | discriminate].
  - destruct r as [|x xs]; [discriminate|]. cbn [map]. f_equal.
    + unfold has_label. cbn [existsb]. rewrite String.eqb_refl. cbn [orb].
      unfold getcell. cbn [select hd tl]. rewrite String.eqb_refl.
      now rewrite (select_absent c0 cs xs Hnotin).
    + transitivity (map (fun c => if has_label cs c then getcell c cs xs else NaN) cs);
        [|apply IH; cbn [List.length] in Hlen; congruence].
      apply map_ext_in. intros c Hc.
      assert (Hne : c0 <> c) by (intros ->; contradiction).
      unfold has_label, getcell. cbn [existsb select hd tl].
      destruct (String.eqb_spec c0 c) as [|_]; [contradiction|].
      destruct (String.eqb_spec c c0) as [E|_]; [congruence|].
      reflexivity.
Qed.

Lemma union_labels_fresh (ls : list string) :
  forall seen, NoDup (seen ++ ls) -> union_labels seen ls = seen ++ ls.
Proof.
  induction ls as [|l ls IH]; intros seen H; cbn [union_labels].
  - now rewrite app_nil_r.
  - assert (Hl : has_label seen l = false).
    { apply has_label_not_In. intros Hin.
      apply NoDup_remove_2 in H. apply H. apply in_or_app. now left. }
    rewrite Hl. rewrite IH; rewrite <- app_assoc; [reflexivity | exact H].
Qed.

Lemma union_labels_seen (ls seen : list string) :
  (forall l, In l ls -> In l seen) -> union_labels seen ls = seen.
Proof.
  induction ls as [|l ls IH]; intros H; cbn [union_labels]; [reflexivity|].
  rewrite (proj2 (has_label_In seen l)) by (apply H; now left).
  apply IH. intros; apply H. now right.
Qed.

Lemma fold_union_same_header (header : list string) (frames : list DataFrame) :
  (forall d, In d frames -> columns d = header) ->
  fold_left union_labels (map columns frames) header = header.
Proof.
  induction frames as [|d frames IH]; intros H; [reflexivity|].
  cbn [map fold_left]. rewrite (H d (or_introl eq_refl)).
  rewrite union_labels_seen by auto.
  apply IH. intros; apply H. now right.
Qed.

Lemma flat_map_ext_In {A B : Type} (f g : A -> list B) (l : list A) :
  (forall a, In a l -> f a = g a) -> flat_map f l = flat_map g l.
Proof.
  induction l as [|a l IH]; intros H; [reflexivity|].
  cbn [flat_map]. rewrite (H a (or_introl eq_refl)), IH; [reflexivity|].
  intros; apply H. now right.
Qed.

Lemma concat_same_header (header : list string) (frames : list DataFrame) :
  frames <> [] ->
  NoDup header ->
  (forall d, In d frames ->
             columns d = header /\
             forall r, In r (rows d) -> List.length r = List.length header) ->
  concat frames = Ok (mkDF header (flat_map rows frames)).
Proof.
  intros Hne Hnd H. destruct frames as [|d0 frames]; [congruence|].
  unfold concat.
  assert (Hsame : forallb (fun df => same_labels (columns df) (columns d0))
                          (d0 :: frames) = true).
  { apply forallb_forall. intros d Hd. unfold same_labels.
    rewrite (proj1 (H d Hd)), (proj1 (H d0 (or_introl eq_refl))).
    destruct (list_eq_dec string_dec header header); [reflexivity | congruence]. }
  rewrite Hsame. now rewrite (proj1 (H d0 (or_introl eq_refl))).
Qed.

(** Under one header of distinct labels the general layout of the
    concatenation, label by label, gives the same rows. *)
Lemma concat_relayout_same_header (header : list string) (d : DataFrame) :
  NoDup header ->
  columns d = header ->
  (forall r, In r (rows d) -> List.length r = List.length header) ->
  map (fun r => map (fun c => if has_label (columns d) c
                              then getcell c (columns d) r else NaN) header)
      (rows d) = rows d.
Proof.
  intros Hnd Hc Hr. rewrite Hc.
  rewrite <- (map_id (rows d)) at 2. apply map_ext_in. intros r Hin.
  apply relayout_same_header; auto.
Qed.

(** X3: when the listed files are all read and their frames have one
    header of distinct labels, with rows as long as the header, [extract]
    returns that header over all the rows, file after file in the order of
    the listing and in each file in the order of its rows: no row is lost,
    added or moved. *)
Theorem extract_same_header_keeps_rows
  (etl : DewpETL) (files : list string) (frames : list DataFrame) (header : list string) :
  list_files_in_prefix (s3_bucket_src etl) (src_files_prefix (src_args etl)) = Ok files ->
  files <> [] ->
  Forall2 (fun f d => read_csv_to_df (s3_bucket_src etl) f = Ok d) files frames ->
  NoDup header ->
  (forall d, In d frames ->
             columns d = header /\
             forall r, In r (rows d) -> List.length r = List.length header) ->
  outcome (extract etl) = Ok (mkDF header (flat_map rows frames)).
Proof.
  intros Hl Hne F Hnd H. rewrite (extract_listed etl files Hl Hne).
  rewrite (pmap_reads_all _ _ _ F). cbn [pbind lift].
  rewrite (concat_same_header header frames); [reflexivity | | exact Hnd | exact H].
  intros ->. inversion F. congruence.
Qed.

Lemma extract_same_header_keeps_rows_witness :
  outcome (extract (Scenario.etl [("annual_2016.csv", Ok Scenario.three_rows);
                                  ("annual_2017.csv", Ok Scenario.three_rows)])) =
  Ok (mkDF Scenario.header
           (flat_map rows [Scenario.three_rows; Scenario.three_rows])).
Proof.
  apply (extract_same_header_keeps_rows
           (Scenario.etl [("annual_2016.csv", Ok Scenario.three_rows);
                          ("annual_2017.csv", Ok Scenario.three_rows)])
           ["annual_2016.csv"; "annual_2017.csv"]
           [Scenario.three_rows; Scenario.three_rows] Scenario.header).
  - reflexivity.
  - discriminate.
  - repeat constructor.
  - repeat constructor; cbn [In]; intuition discriminate.
  - intros d [<-|[<-|[]]]; (split; [reflexivity|]);
      intros r [<-|[<-|[<-|[]]]]; reflexivity.
Defined.

(** ** Load and the job *)

(** X4: [load] does not look at what the write answers: when the write
    returns, with [True] or with [False], [load] logs the success message
    and returns [True]; when the write raises, [load] raises the same
    exception and logs nothing. *)
Theorem load_ignores_write_answer (today : datetime) (etl : DewpETL) (df : DataFrame) :
  (forall b,
      write_df_to_s3 (s3_bucket_trg etl) df (target_key today (trg_args etl))
                     (trg_format (trg_args etl)) = Ok b ->
      load today etl df =
      ([WriteDf df (target_key today (trg_args etl)) (trg_format (trg_args etl));
        LogInfo "Dewp target data successfully written."],
       Ok true)) /\
  (forall e,
      write_df_to_s3 (s3_bucket_trg etl) df (target_key today (trg_args etl))
                     (trg_format (trg_args etl)) = Raise e ->
      load today etl df =
      ([WriteDf df (target_key today (trg_args etl)) (trg_format (trg_args etl))],
       Raise e)).
Proof.
  split; intros x H; unfold load, call_write_df, perform; rewrite H; reflexivity.
Qed.

Lemma transform_report1_logs_only (p : string -> option Z) (etl : DewpETL) (df : DataFrame) :
  forall ev, In ev (trace (transform_report1 p etl df)) -> exists msg, ev = LogInfo msg.
Proof.
  intros ev. unfold transform_report1. destruct (empty df).
  - cbn. intros [<-|[]]. eexists; reflexivity.
  - rewrite trace_pbind. cbn [log_info perform trace outcome fst snd].
    rewrite trace_pbind. cbn [lift trace outcome fst snd].
    destruct (report1_steps p etl df); cbn; intros H;
      repeat (destruct H as [<-|H]; [eexists; reflexivity|]); destruct H.
Qed.

Lemma transform_report1_no_write (p : string -> option Z) (etl : DewpETL) (df : DataFrame) :
  writes (trace (transform_report1 p etl df)) = [].
Proof.
  pose proof (transform_report1_logs_only p etl df) as H.
  induction (trace (transform_report1 p etl df)) as [|ev t IH]; [reflexivity|].
  destruct (H ev (or_introl eq_refl)) as [msg ->]. cbn [writes flat_map app].
  apply IH. intros ev' Hev'. apply H. now right.
Qed.

(** X5: [transform_report1] calls no connector: whatever the frame and the
    configuration, it lists, reads and writes nothing; its trace holds log
    messages only. *)
Theorem transform_report1_touches_no_storage
  (p : string -> option Z) (etl : DewpETL) (df : DataFrame) :
  writes (trace (transform_report1 p etl df)) = [] /\
  forall ev, In ev (trace (transform_report1 p etl df)) -> exists msg, ev = LogInfo msg.
Proof.
  split; [apply transform_report1_no_write | apply transform_report1_logs_only].
Qed.

Lemma load_writes (today : datetime) (etl : DewpETL) (df : DataFrame) :
  writes (trace (load today etl df)) =
  [(df, target_key today (trg_args etl), trg_format (trg_args etl))].
Proof.
  unfold load, call_write_df, perform, log_info, perform, pret, pbind.
  destruct (write_df_to_s3 _ _ _ _); reflexivity.
Qed.

Lemma load_outcome (today : datetime) (etl : DewpETL) (df : DataFrame) :
  outcome (load today etl df) =
  match write_df_to_s3 (s3_bucket_trg etl) df (target_key today (trg_args etl))
                       (trg_format (trg_args etl)) with
  | Ok _ => Ok true
  | Raise e => Raise e
  end.
Proof.
  unfold load, call_write_df, perform, log_info, perform, pret, pbind.
  destruct (write_df_to_s3 _ _ _ _); reflexivity.
Qed.

(** X6: when [extract] returns a frame and [transform_report1] returns the
    report of it, the job does what the three methods do one after the
    other, makes exactly one write, of the report and under the target
    key, and returns [True] unless that write raises, in which case it
    raises the exception of the write. *)
Theorem etl_report1_writes_the_report
  (p : string -> option Z) (today : datetime) (etl : DewpETL) (df out : DataFrame) :
  outcome (extract etl) = Ok df ->
  outcome (transform_report1 p etl df) = Ok out ->
  trace (etl_report1 p today etl) =
    trace (extract etl) ++ trace (transform_report1 p etl df)
      ++ trace (load today etl out) /\
  writes (trace (etl_report1 p today etl)) =
    [(out, target_key today (trg_args etl), trg_format (trg_args etl))] /\
  outcome (etl_report1 p today etl) =
    match write_df_to_s3 (s3_bucket_trg etl) out (target_key today (trg_args etl))
                         (trg_format (trg_args etl)) with
    | Ok _ => Ok true
    | Raise e => Raise e
    end.
Proof.
  intros Hx Ht.
  assert (Htrace : trace (etl_report1 p today etl) =
                   trace (extract etl) ++ trace (transform_report1 p etl df)
                     ++ trace (load today etl out)).
  { unfold etl_report1. rewrite trace_pbind, Hx, trace_pbind, Ht, trace_pbind.
    destruct (outcome (load today etl out)); cbn [pret trace fst];
      now rewrite app_nil_r. }
  split; [exact Htrace|]. split.
  - rewrite Htrace, !writes_app, extract_no_write, transform_report1_no_write.
    apply load_writes.
  - unfold etl_report1. rewrite outcome_pbind, Hx, outcome_pbind, Ht, outcome_pbind.
    rewrite load_outcome. destruct (write_df_to_s3 _ _ _ _); reflexivity.
Qed.

Lemma etl_report1_writes_the_report_witness :
  trace (etl_report1 decimal_text Scenario.execution_date
           (Scenario.etl [("annual.csv", Ok Scenario.three_rows)])) =
    trace (extract (Scenario.etl [("annual.csv", Ok Scenario.three_rows)]))
      ++ trace (transform_report1 decimal_text
                  (Scenario.etl [("annual.csv", Ok Scenario.three_rows)])
                  Scenario.three_rows)
      ++ trace (load Scenario.execution_date
                  (Scenario.etl [("annual.csv", Ok Scenario.three_rows)])
                  (mkDF ["Year"; "Industry_aggregation_NZSIOC"; "Industry_code_NZSIOC";
                         "min_value"; "max_value"]
                        [[Num 2016; Str "A"; Str "X"; Num 0; Num 10]])) /\
  writes (trace (etl_report1 decimal_text Scenario.execution_date
                   (Scenario.etl [("annual.csv", Ok Scenario.three_rows)]))) =
    [(mkDF ["Year"; "Industry_aggregation_NZSIOC"; "Industry_code_NZSIOC";
            "min_value"; "max_value"]
           [[Num 2016; Str "A"; Str "X"; Num 0; Num 10]],
      "report1_20240301.parquet", "parquet")] /\
  outcome (etl_report1 decimal_text Scenario.execution_date
             (Scenario.etl [("annual.csv", Ok Scenario.three_rows)])) = Ok true.
Proof.
  apply (etl_report1_writes_the_report decimal_text Scenario.execution_date
           (Scenario.etl [("annual.csv", Ok Scenario.three_rows)])
           Scenario.three_rows
           (mkDF ["Year"; "Industry_aggregation_NZSIOC"; "Industry_code_NZSIOC";
                  "min_value"; "max_value"]
                 [[Num 2016; Str "A"; Str "X"; Num 0; Num 10]])).
  - reflexivity.
  - vm_compute. reflexivity.
Defined.

(** X7: when [extract] raises, the job raises the same exception and stops
    there: its trace is the trace of [extract], so nothing is transformed
    and nothing is written. *)
Theorem etl_report1_stops_when_extract_raises
  (p : string -> option Z) (today : datetime) (etl : DewpETL) (e : exn) :
  outcome (extract etl) = Raise e ->
  etl_report1 p today etl = (trace (extract etl), Raise e) /\
  writes (trace (etl_report1 p today etl)) = [].
Proof.
  intros Hx.
  assert (H : etl_report1 p today etl = (trace (extract etl), Raise e)).
  { unfold etl_report1. destruct (extract etl) as [t [d|e']]; cbn in Hx;
      [discriminate|]. inversion Hx; subst e'. reflexivity. }
  split; [exact H|]. rewrite H. apply extract_no_write.
Qed.

Lemma etl_report1_stops_when_extract_raises_witness :
  etl_report1 decimal_text Scenario.execution_date
    (Scenario.etl [("annual_2016.csv", Ok Scenario.three_rows);
                   ("annual_2017.csv", Raise (StorageError "AccessDenied"))]) =
  (trace (extract (Scenario.etl
                     [("annual_2016.csv", Ok Scenario.three_rows);
                      ("annual_2017.csv", Raise (StorageError "AccessDenied"))])),
   Raise (StorageError "AccessDenied")) /\
  writes (trace (etl_report1 decimal_text Scenario.execution_date
                   (Scenario.etl
                      [("annual_2016.csv", Ok Scenario.three_rows);
                       ("annual_2017.csv", Raise (StorageError "AccessDenied"))]))) = [].
Proof.
  apply (etl_report1_stops_when_extract_raises decimal_text Scenario.execution_date
           (Scenario.etl [("annual_2016.csv", Ok Scenario.three_rows);
                          ("annual_2017.csv", Raise (StorageError "AccessDenied"))])
           (StorageError "AccessDenied")).
  reflexivity.
Defined.

(** X8: when the transformation raises, the job raises the same exception
    and has written nothing: [load] is not reached. *)
Theorem etl_report1_stops_when_transform_raises
  (p : string -> option Z) (today : datetime) (etl : DewpETL)
  (df : DataFrame) (e : exn) :
  outcome (extract etl) = Ok df ->
  outcome (transform_report1 p etl df) = Raise e ->
  outcome (etl_report1 p today etl) = Raise e /\
  writes (trace (etl_report1 p today etl)) = [] /\
  trace (etl_report1 p today etl) =
    trace (extract etl) ++ trace (transform_report1 p etl df).
Proof.
  intros Hx Ht. unfold etl_report1.
  assert (Htrace : trace (data_frame <- extract etl ;;
                          data_frame <- transform_report1 p etl data_frame ;;
                          load today etl data_frame ;; pret true)%prog =
                   trace (extract etl) ++ trace (transform_report1 p etl df)).
  { rewrite trace_pbind, Hx, trace_pbind, Ht. now rewrite app_nil_r. }
  split; [|split].
  - rewrite outcome_pbind, Hx, outcome_pbind, Ht. reflexivity.
  - rewrite Htrace, writes_app, extract_no_write, transform_report1_no_write.
    reflexivity.
  - exact Htrace.
Qed.

Lemma etl_report1_stops_when_transform_raises_witness :
  outcome (etl_report1 decimal_text Scenario.execution_date
             (Scenario.etl [("annual.csv", Ok (mkDF ["Year"; "Units"]
                                                  [[Num 2016; Str "Dollars"]]))])) =
    Raise (KeyError ["Industry_aggregation_NZSIOC"; "Industry_code_NZSIOC"; "Value"]) /\
  writes (trace (etl_report1 decimal_text Scenario.execution_date
                   (Scenario.etl [("annual.csv", Ok (mkDF ["Year"; "Units"]
                                                        [[Num 2016; Str "Dollars"]]))]))) = [] /\
  trace (etl_report1 decimal_text Scenario.execution_date
           (Scenario.etl [("annual.csv", Ok (mkDF ["Year"; "Units"]
                                                [[Num 2016; Str "Dollars"]]))])) =
    trace (extract (Scenario.etl [("annual.csv", Ok (mkDF ["Year"; "Units"]
                                                       [[Num 2016; Str "Dollars"]]))]))
      ++ trace (transform_report1 decimal_text
                  (Scenario.etl [("annual.csv", Ok (mkDF ["Year"; "Units"]
                                                       [[Num 2016; Str "Dollars"]]))])
                  (mkDF ["Year"; "Units"] [[Num 2016; Str "Dollars"]])).
Proof.
  apply (etl_report1_stops_when_transform_raises decimal_text Scenario.execution_date
           (Scenario.etl [("annual.csv", Ok (mkDF ["Year"; "Units"]
                                                [[Num 2016; Str "Dollars"]]))])
           (mkDF ["Year"; "Units"] [[Num 2016; Str "Dollars"]])).
  - reflexivity.
  - reflexivity.
Defined.

(** X9: when no file is listed under the prefix, the job reads nothing,
    hands the frame without rows and columns through the transformation
    as it is and still writes it, once, under the target key. *)
Theorem etl_report1_writes_empty_frame_without_files
  (p : string -> option Z) (today : datetime) (etl : DewpETL) :
  list_files_in_prefix (s3_bucket_src etl) (src_files_prefix (src_args etl)) = Ok [] ->
  trace (etl_report1 p today etl) =
    [LogInfo "Extracting Dewp source files started...";
     ListFiles (src_files_prefix (src_args etl));
     LogInfo "Extracting Dewp source files finished.";
     LogInfo "The dataframe is empty. No transformations will be applied."]
      ++ trace (load today etl (mkDF [] [])) /\
  writes (trace (etl_report1 p today etl)) =
    [(mkDF [] [], target_key today (trg_args etl), trg_format (trg_args etl))].
Proof.
  intros Hl.
  assert (Hx : extract etl =
               ([LogInfo "Extracting Dewp source files started...";
                 ListFiles (src_files_prefix (src_args etl));
                 LogInfo "Extracting Dewp source files finished."], Ok (mkDF [] []))).
  { unfold extract, call_list_files, perform, log_info, perform.
    rewrite Hl. reflexivity. }
  assert (Htrace : trace (etl_report1 p today etl) =
                   [LogInfo "Extracting Dewp source files started...";
                    ListFiles (src_files_prefix (src_args etl));
                    LogInfo "Extracting Dewp source files finished.";
                    LogInfo "The dataframe is empty. No transformations will be applied."]
                     ++ trace (load today etl (mkDF [] []))).
  { unfold etl_report1. rewrite trace_pbind, Hx. cbn [trace outcome fst snd].
    rewrite trace_pbind. cbn [transform_report1 empty columns rows List.length
                                Nat.eqb orb].
    cbn [log_info perform pret pbind trace outcome fst snd app].
    rewrite trace_pbind.
    destruct (outcome (load today etl (mkDF [] []))); cbn [pret trace fst];
      now rewrite app_nil_r. }
  split; [exact Htrace|].
  rewrite Htrace, writes_app. cbn [writes flat_map app]. apply load_writes.
Qed.

Lemma etl_report1_writes_empty_frame_without_files_witness :
  trace (etl_report1 decimal_text Scenario.execution_date (Scenario.etl [])) =
    [LogInfo "Extracting Dewp source files started...";
     ListFiles "annual";
     LogInfo "Extracting Dewp source files finished.";
     LogInfo "The dataframe is empty. No transformations will be applied."]
      ++ trace (load Scenario.execution_date (Scenario.etl []) (mkDF [] [])) /\
  writes (trace (etl_report1 decimal_text Scenario.execution_date (Scenario.etl []))) =
    [(mkDF [] [], "report1_20240301.parquet", "parquet")].
Proof.
  apply (etl_report1_writes_empty_frame_without_files
           decimal_text Scenario.execution_date (Scenario.etl [])).
  reflexivity.
Defined.

(** ** Projection on the configured columns *)

Lemma select_length (label : string) (cols : list string) (row : list cell) :
  List.length (select label cols row) = List.length (filter (String.eqb label) cols).
Proof.
  revert row. induction cols as [|c cols IH]; intros row; [reflexivity|].
  cbn [select filter]. rewrite (String.eqb_sym label c).
  destruct (c =? label); cbn [List.length]; now rewrite IH.
Qed.

Lemma select_app (label : string) (cols1 cols2 : list string) (r1 r2 : list cell) :
  List.length r1 = List.length cols1 ->
  select label (cols1 ++ cols2) (r1 ++ r2) = select label cols1 r1 ++ select label cols2 r2.
Proof.
  revert r1. induction cols1 as [|c cols1 IH]; intros r1 Hlen.
  - destruct r1; [reflexivity | discriminate].
  - destruct r1 as [|x r1]; [discriminate|].
    cbn [app select hd tl]. injection Hlen as Hlen.
    destruct (c =? label); cbn [app]; now rewrite IH.
Qed.

Lemma select_of_selected (label other : string) (cols : list string) (row : list cell) :
  select label (filter (String.eqb other) cols) (select other cols row) =
  if other =? label then select label cols row else [].
Proof.
  revert row. induction cols as [|c cols IH]; intros row.
  - cbn [filter select]. now destruct (other =? label).
  - cbn [filter select]. rewrite (String.eqb_sym other c).
    destruct (String.eqb_spec c other) as [->|Hco].
    + cbn [select hd tl]. rewrite IH.
      destruct (other =? label); reflexivity.
    + rewrite IH. destruct (String.eqb_spec other label) as [<-|_]; [|reflexivity].
      destruct (String.eqb_spec c other); [contradiction | reflexivity].
Qed.

Lemma select_of_projected (label : string) (labels cols : list string) (row : list cell) :
  select label (flat_map (fun l => filter (String.eqb l) cols) labels)
         (flat_map (fun l => select l cols row) labels) =
  flat_map (fun l => if l =? label then select label cols row else []) labels.
Proof.
  induction labels as [|l labels IH]; [reflexivity|].
  cbn [flat_map]. rewrite select_app by apply select_length.
  now rewrite select_of_selected, IH.
Qed.

Lemma last_cons_default {A : Type} (l : list A) (y d d' : A) :
  last (y :: l) d = last (y :: l) d'.
Proof.
  revert y. induction l as [|z l IH]; intros y; [reflexivity|].
  change (last (y :: z :: l) d) with (last (z :: l) d).
  change (last (y :: z :: l) d') with (last (z :: l) d').
  apply IH.
Qed.

Lemma last_app_default {A : Type} (a b : list A) (d : A) :
  last (a ++ b) d = last b (last a d).
Proof.
  induction a as [|x a IH]; [reflexivity|].
  destruct a as [|y a].
  - cbn [app]. destruct b as [|z b]; [reflexivity|].
    change (last (x :: z :: b) d) with (last (z :: b) d).
    apply last_cons_default.
  - change (last ((x :: y :: a) ++ b) d) with (last ((y :: a) ++ b) d).
    rewrite IH. reflexivity.
Qed.

Lemma last_last {A : Type} (s : list A) (d : A) : last s (last s d) = last s d.
Proof.
  induction s as [|x s IH]; [reflexivity|].
  destruct s as [|y s]; [reflexivity|].
  change (last (x :: y :: s) (last (x :: y :: s) d)) with
    (last (y :: s) (last (y :: s) d)).
  exact IH.
Qed.

Lemma last_of_copies (label : string) (labels : list string) (s : list cell) :
  In label labels ->
  forall d, last (flat_map (fun l => if l =? label then s else []) labels) d = last s d.
Proof.
  induction labels as [|l labels IH]; intros Hin d; [destruct Hin|].
  cbn [flat_map]. rewrite last_app_default.
  destruct (in_dec string_dec label labels) as [Hin'|Hout].
  - rewrite (IH Hin'). destruct (l =? label); [apply last_last | reflexivity].
  - destruct Hin as [->|Hin]; [|contradiction].
    rewrite String.eqb_refl.
    assert (Hnil : flat_map (fun l => if l =? label then s else []) labels = []).
    { clear IH. induction labels as [|l labels IH]; [reflexivity|].
      cbn [flat_map].
      destruct (String.eqb_spec l label) as [->|_].
      - exfalso. apply Hout. now left.
      - apply IH. intros H. apply Hout. now right. }
    rewrite Hnil. reflexivity.
Qed.

Definition projected_row (labels cols : list string) (row : list cell) : list cell :=
  flat_map (fun l => select l cols row) labels.

Lemma getcell_projected (label : string) (labels cols : list string) (row : list cell) :
  In label labels ->
  getcell label (flat_map (fun l => filter (String.eqb l) cols) labels)
          (projected_row labels cols row) =
  getcell label cols row.
Proof.
  intros Hin. unfold getcell, projected_row.
  rewrite select_of_projected. now apply last_of_copies.
Qed.

Lemma loc_columns_Ok (df : DataFrame) (labels : list string) (projected : DataFrame) :
  loc_columns df labels = Ok projected ->
  (forall l, In l labels -> In l (columns df)) /\
  projected =
  mkDF (flat_map (fun l => filter (String.eqb l) (columns df)) labels)
       (map (projected_row labels (columns df)) (rows df)).
Proof.
  unfold loc_columns. intros H.
  destruct (filter (fun l => negb (has_label (columns df) l)) labels) as [|m ms] eqn:Hf;
    [|discriminate].
  inversion H; subst projected; clear H. split; [|reflexivity].
  intros l Hl. apply has_label_In.
  destruct (has_label (columns df) l) eqn:E; [reflexivity|].
  assert (Hin : In l (filter (fun l => negb (has_label (columns df) l)) labels)).
  { apply filter_In. split; [assumption|]. now rewrite E. }
  rewrite Hf in Hin. destruct Hin.
Qed.

Lemma loc_columns_present (df : DataFrame) (labels : list string) :
  (forall l, In l labels -> In l (columns df)) ->
  loc_columns df labels =
  Ok (mkDF (flat_map (fun l => filter (String.eqb l) (columns df)) labels)
           (map (projected_row labels (columns df)) (rows df))).
Proof.
  intros H. unfold loc_columns.
  assert (Hf : filter (fun l => negb (has_label (columns df) l)) labels = []).
  { induction labels as [|l labels IH]; [reflexivity|].
    cbn [filter]. rewrite (proj2 (has_label_In _ _) (H l (or_introl eq_refl))).
    cbn [negb]. apply IH. intros; apply H. now right. }
  rewrite Hf. reflexivity.
Qed.

Lemma filter_eqb_NoDup (label : string) (cols : list string) :
  NoDup cols -> In label cols -> filter (String.eqb label) cols = [label].
Proof.
  intros Hnd. induction Hnd as [|c cols Hnotin Hnd IH]; intros Hin; [destruct Hin|].
  cbn [filter]. destruct (String.eqb_spec label c) as [->|Hne].
  - f_equal. clear IH Hin Hnd.
    induction cols as [|c' cols IH]; [reflexivity|]. cbn [filter].
    destruct (String.eqb_spec c c') as [->|_].
    + exfalso. apply Hnotin. now left.
    + apply IH. intros H. apply Hnotin. now right.
  - apply IH. destruct Hin as [->|Hin]; [congruence | assumption].
Qed.

Lemma projected_columns_NoDup (labels cols : list string) :
  NoDup cols -> (forall l, In l labels -> In l cols) ->
  flat_map (fun l => filter (String.eqb l) cols) labels = labels.
Proof.
  intros Hnd. induction labels as [|l labels IH]; intros H; [reflexivity|].
  cbn [flat_map]. rewrite (filter_eqb_NoDup l cols Hnd (H l (or_introl eq_refl))).
  cbn [app]. f_equal. apply IH. intros; apply H. now right.
Qed.

(** X10: the projection of line 111 returns exactly when every configured
    label is a column of the frame.  It keeps every row, in order, and in
    each row the cell under each configured label; when the labels of the
    frame are distinct, the columns of the result are the configured
    labels in the configured order. *)
Theorem loc_columns_keeps_configured_cells (df : DataFrame) (labels : list string) :
  ((exists projected, loc_columns df labels = Ok projected) <->
   (forall l, In l labels -> In l (columns df))) /\
  (forall projected,
      loc_columns df labels = Ok projected ->
      Forall2 (fun r r' =>
                 forall l, In l labels ->
                           getcell l (columns projected) r' = getcell l (columns df) r)
              (rows df) (rows projected) /\
      (NoDup (columns df) -> columns projected = labels)).
Proof.
  split.
  - split.
    + intros [projected H]. exact (proj1 (loc_columns_Ok df labels projected H)).
    + intros H. eexists. exact (loc_columns_present df labels H).
  - intros projected H.
    destruct (loc_columns_Ok df labels projected H) as [Hin ->].
    cbn [columns rows]. split.
    + apply Forall2_map_r. intros r _ l Hl. now apply getcell_projected.
    + intros Hnd. now apply projected_columns_NoDup.
Qed.

(** ** Ways for the transformation to raise *)

Lemma occurrences_zero (cols : list string) (label : string) :
  ~ In label cols -> occurrences label cols = O.
Proof.
  intros H. destruct (occurrences label cols) eqn:E; [reflexivity|].
  exfalso. apply H. apply occurrences_pos. rewrite E. discriminate.
Qed.

Lemma In_projected_columns (label : string) (labels cols : list string) :
  In label (flat_map (fun l => filter (String.eqb l) cols) labels) -> In label labels.
Proof.
  rewrite in_flat_map. intros [l [Hl Hin]].
  apply filter_In in Hin. destruct Hin as [_ Heq].
  apply String.eqb_eq in Heq. now subst.
Qed.

(** X11: the value column has to be among the configured columns: when
    the frame is not empty and has every configured column, but the
    configured value column is not one of them, [transform_report1]
    raises a [KeyError] for the value column at the coercion, even if the
    frame itself has that column. *)
Theorem transform_report1_value_column_not_retained
  (p : string -> option Z) (etl : DewpETL) (df : DataFrame) :
  empty df = false ->
  (forall l, In l (src_columns (src_args etl)) -> In l (columns df)) ->
  ~ In (src_col_value (src_args etl)) (src_columns (src_args etl)) ->
  transform_report1 p etl df =
  ([LogInfo "Applying transformations to Dewp source data for report 1 started..."],
   Raise (KeyError [src_col_value (src_args etl)])).
Proof.
  intros Hne Hin Hout.
  rewrite (transform_report1_nonempty p etl df Hne).
  unfold report1_steps, report1_filtered, report1_coerced.
  rewrite (loc_columns_present df _ Hin). cbn [rbind].
  unfold getitem. cbn [columns].
  rewrite occurrences_zero; [reflexivity|].
  intros H. apply Hout. exact (In_projected_columns _ _ _ H).
Qed.

Lemma transform_report1_value_column_not_retained_witness :
  transform_report1 decimal_text
    {| s3_bucket_src := Scenario.bucket [];
       s3_bucket_trg := Scenario.bucket [];
       src_args := {| src_columns := ["Year"; "Industry_aggregation_NZSIOC";
                                      "Industry_code_NZSIOC"];
                      src_col_year := "Year";
                      src_col_industry_aggregation_knzsioc := "Industry_aggregation_NZSIOC";
                      src_col_industry_code_nzsioc := "Industry_code_NZSIOC";
                      src_col_value := "Value";
                      src_col_year_filter := "2015";
                      src_files_prefix := "annual";
                      src_format := "csv" |};
       trg_args := Scenario.target |}
    Scenario.three_rows =
  ([LogInfo "Applying transformations to Dewp source data for report 1 started..."],
   Raise (KeyError ["Value"])).
Proof.
  apply (transform_report1_value_column_not_retained decimal_text
           {| s3_bucket_src := Scenario.bucket [];
              s3_bucket_trg := Scenario.bucket [];
              src_args := {| src_columns := ["Year"; "Industry_aggregation_NZSIOC";
                                             "Industry_code_NZSIOC"];
                             src_col_year := "Year";
                             src_col_industry_aggregation_knzsioc :=
                               "Industry_aggregation_NZSIOC";
                             src_col_industry_code_nzsioc := "Industry_code_NZSIOC";
                             src_col_value := "Value";
                             src_col_year_filter := "2015";
                             src_files_prefix := "annual";
                             src_format := "csv" |};
              trg_args := Scenario.target |}
           Scenario.three_rows).
  - reflexivity.
  - cbn. intuition (subst; auto).
  - cbn. intros [H|[H|[H|[]]]]; discriminate.
Defined.

Lemma rmap_raises {A B : Type} (f : A -> result B) (l : list A) (e : exn) :
  (exists a, In a l /\ f a = Raise e) ->
  (forall a e', In a l -> f a = Raise e' -> e' = e) ->
  rmap f l = Raise e.
Proof.
  induction l as [|a l IH]; intros [a0 [Hin Hf]] Hsame; [destruct Hin|].
  cbn [rmap]. destruct (f a) as [b|e'] eqn:Ha.
  - cbn [rbind]. destruct Hin as [->|Hin]; [congruence|].
    rewrite IH; [reflexivity | eauto |].
    intros a1 e1 H1. apply Hsame. now right.
  - cbn [rbind]. f_equal. apply (Hsame a e'); [now left | assumption].
Qed.

(** X12: a text in the year column stops the transformation: when the
    coerced frame has the year column, its label reads as a name, the
    threshold is an integer literal and some row holds a text as its
    year, the year filter raises a [TypeError], whatever the other rows
    hold, and [transform_report1] passes it on after its first log
    message. *)
Theorem transform_report1_text_year_raises
  (p : string -> option Z) (etl : DewpETL) (df coerced : DataFrame) (t : Z) :
  empty df = false ->
  report1_coerced p (src_args etl) df = Ok coerced ->
  In (src_col_year (src_args etl)) (columns coerced) ->
  is_name (src_col_year (src_args etl)) = true ->
  int_literal (src_col_year_filter (src_args etl)) = Some t ->
  (exists r s, In r (rows coerced) /\
               getcell (src_col_year (src_args etl)) (columns coerced) r = Str s) ->
  transform_report1 p etl df =
  ([LogInfo "Applying transformations to Dewp source data for report 1 started..."],
   Raise (TypeError "'>=' not supported between instances of 'str' and 'int'")).
Proof.
  intros Hne Hc Hin Hname Hlit [r [s [Hr Hs]]].
  rewrite (transform_report1_nonempty p etl df Hne).
  unfold report1_steps, report1_filtered. rewrite Hc. cbn [rbind].
  unfold query_ge.
  rewrite Hname, (proj2 (has_label_In _ _) Hin), (int_literal_number_literal _ _ Hlit).
  rewrite (rmap_raises _ _
             (TypeError "'>=' not supported between instances of 'str' and 'int'")).
  - reflexivity.
  - exists r. split; [assumption|]. rewrite Hs. reflexivity.
  - intros a e' _. destruct (getcell _ _ a); cbn [ge_mask]; intros H;
      inversion H; reflexivity.
Qed.

Lemma transform_report1_text_year_raises_witness :
  transform_report1 decimal_text (Scenario.etl [])
    (mkDF Scenario.header
          [[Num 2016; Str "A"; Str "X"; Str "Dollars"; Str "10"];
           [Str "FY2017"; Str "A"; Str "X"; Str "Dollars"; Str "12"]]) =
  ([LogInfo "Applying transformations to Dewp source data for report 1 started..."],
   Raise (TypeError "'>=' not supported between instances of 'str' and 'int'")).
Proof.
  apply (transform_report1_text_year_raises decimal_text (Scenario.etl [])
           (mkDF Scenario.header
                 [[Num 2016; Str "A"; Str "X"; Str "Dollars"; Str "10"];
                  [Str "FY2017"; Str "A"; Str "X"; Str "Dollars"; Str "12"]])
           (mkDF (src_columns Scenario.source)
                 [[Num 2016; Str "A"; Str "X"; Num 10];
                  [Str "FY2017"; Str "A"; Str "X"; Num 12]])
           2015%Z).
  - reflexivity.
  - reflexivity.
  - cbn. tauto.
  - reflexivity.
  - reflexivity.
  - exists [Str "FY2017"; Str "A"; Str "X"; Num 12], "FY2017".
    split; [cbn; tauto | reflexivity].
Defined.

(** ** Size and order of the report *)

Example report_of_four_groups :
  outcome (transform_report1 decimal_text (Scenario.etl []) Cases.four_groups) =
  Ok Cases.four_groups_report.
Proof. vm_compute. reflexivity. Qed.

Lemma filter_length_bound {A : Type} (f : A -> bool) (l : list A) :
  (List.length (filter f l) <= List.length l)%nat.
Proof.
  induction l as [|a l IH]; [apply Nat.le_refl|].
  cbn [filter]. destruct (f a); cbn [List.length]; lia.
Qed.

Lemma report1_filtered_length (p : string -> option Z) (src : DewpSourceConfig)
      (df kept : DataFrame) :
  report1_filtered p src df = Ok kept ->
  (List.length (rows kept) <= List.length (rows df))%nat.
Proof.
  unfold report1_filtered. intros H.
  destruct (report1_coerced p src df) as [coerced|e] eqn:Hc; [|discriminate].
  cbn [rbind] in H.
  destruct (query_ge_Ok _ _ _ _ H) as [t [_ [_ [_ [_ Hrows]]]]].
  destruct (report1_coerced_inv p src df coerced Hc) as [projected [Hloc Hocc]].
  rewrite (report1_coerced_rows p src df projected Hloc Hocc) in Hc.
  inversion Hc; subst coerced; clear Hc.
  destruct (loc_columns_Ok df _ projected Hloc) as [_ ->].
  cbn [columns rows] in Hrows. rewrite Hrows.
  etransitivity; [apply filter_length_bound|].
  rewrite !length_map. apply Nat.le_refl.
Qed.

(** X13: the report never has more rows than the frame it is made from:
    whenever [transform_report1] returns, the number of its rows is at
    most the number of rows kept by the year filter, which is at most the
    number of rows of the input. *)
Theorem report1_has_no_more_rows_than_input
  (p : string -> option Z) (etl : DewpETL) (df out : DataFrame) :
  outcome (transform_report1 p etl df) = Ok out ->
  (List.length (rows out) <= List.length (rows df))%nat /\
  (empty df = false ->
   exists kept,
     report1_filtered p (src_args etl) df = Ok kept /\
     (List.length (rows out) <= List.length (rows kept) <= List.length (rows df))%nat).
Proof.
  intros Hout.
  assert (Hsteps : empty df = false ->
                   exists kept,
                     report1_filtered p (src_args etl) df = Ok kept /\
                     (List.length (rows out) <= List.length (rows kept)
                      <= List.length (rows df))%nat).
  { intros He. rewrite (transform_report1_outcome p etl df He) in Hout.
    destruct (report1_steps_Ok p etl df out Hout)
      as [kept [Hk [_ [groups [Hnd [Hin HF]]]]]].
    exists kept. split; [assumption|]. split.
    - rewrite <- (Forall2_length HF).
      rewrite <- (length_map (row_key (report1_keys (src_args etl)) (columns kept))
                              (rows kept)).
      apply NoDup_incl_length; [assumption|].
      intros k Hk'. apply Hin in Hk'. destruct Hk' as [r [Hr [<- _]]].
      now apply in_map.
    - exact (report1_filtered_length p _ df kept Hk). }
  split; [|exact Hsteps].
  destruct (empty df) eqn:He.
  - unfold transform_report1 in Hout. rewrite He in Hout.
    inversion Hout; subst out. apply Nat.le_refl.
  - destruct (Hsteps eq_refl) as [kept [_ [H1 H2]]]. lia.
Qed.

Lemma report1_has_no_more_rows_than_input_witness :
  (List.length (rows Cases.four_groups_report) <= List.length (rows Cases.four_groups))%nat /\
  (empty Cases.four_groups = false ->
   exists kept,
     report1_filtered decimal_text Scenario.source Cases.four_groups = Ok kept /\
     (List.length (rows Cases.four_groups_report) <= List.length (rows kept)
      <= List.length (rows Cases.four_groups))%nat).
Proof.
  apply (report1_has_no_more_rows_than_input decimal_text (Scenario.etl [])
           Cases.four_groups Cases.four_groups_report).
  vm_compute. reflexivity.
Defined.

Definition key_le (k1 k2 : list cell) : Prop := key_leb k1 k2 = true.

Lemma cell_leb_total (a b : cell) : cell_leb a b = false -> cell_leb b a = true.
Proof.
  destruct a as [x|s|], b as [y|t|]; cbn [cell_leb]; try congruence.
  - intros H. apply Z.leb_gt in H. apply Z.leb_le. lia.
  - intros H. destruct (String.leb_total s t) as [H'|H']; congruence.
Qed.

Lemma key_leb_total (k1 k2 : list cell) : key_leb k1 k2 = false -> key_leb k2 k1 = true.
Proof.
  revert k2. induction k1 as [|a k1 IH]; intros [|b k2]; cbn [key_leb];
    try congruence.
  destruct (cell_eq_dec a b) as [->|Hne].
  - destruct (cell_eq_dec b b); [apply IH | congruence].
  - destruct (cell_eq_dec b a); [congruence | apply cell_leb_total].
Qed.

Lemma insert_key_HdRel (k a : list cell) (ks : list (list cell)) :
  key_le a k -> HdRel key_le a ks -> HdRel key_le a (insert_key k ks).
Proof.
  intros Hak H. destruct ks as [|k' ks]; cbn [insert_key].
  - now constructor.
  - destruct (key_leb k k'); constructor; [assumption | now inversion H].
Qed.

Lemma insert_key_sorted (k : list cell) (ks : list (list cell)) :
  Sorted key_le ks -> Sorted key_le (insert_key k ks).
Proof.
  intros H. induction H as [|k' ks Hs IH Hhd]; cbn [insert_key].
  - repeat constructor.
  - destruct (key_leb k k') eqn:E.
    + constructor; [now constructor | now constructor].
    + constructor; [assumption|].
      apply insert_key_HdRel; [|assumption].
      now apply key_leb_total.
Qed.

Lemma sort_keys_sorted (ks : list (list cell)) : Sorted key_le (sort_keys ks).
Proof.
  induction ks as [|k ks IH]; cbn [sort_keys]; [constructor|].
  now apply insert_key_sorted.
Qed.

Lemma firstn_length_app {A : Type} (k l : list A) : firstn (List.length k) (k ++ l) = k.
Proof.
  induction k as [|a k IH]; cbn [List.length app firstn].
  - now destruct l.
  - now rewrite IH.
Qed.

Lemma groupby_min_max_keys_sorted (df : DataFrame) (keys : list string) (value : string)
      (g : DataFrame) :
  (forall l, In l keys -> has_label aggregate_labels l = false) ->
  groupby_min_max df keys value = Ok g ->
  Sorted key_le (map (firstn (List.length keys)) (rows g)).
Proof.
  unfold groupby_min_max. intros Hshown H.
  destruct (check_groupers (columns df) keys) as [[]|e]; [|discriminate].
  destruct (check_aggregated (columns df) value) as [[]|e]; [|discriminate].
  destruct (check_output_labels keys) as [[]|e]; [|discriminate].
  cbn [rbind] in H.
  set (key_of := row_key keys (columns df)) in *.
  set (kept := filter (fun r => negb (existsb is_nan (key_of r))) (rows df)) in *.
  set (groups := sort_keys (nodup key_eq_dec (map key_of kept))) in *.
  destruct (rmap _ groups) as [out|e] eqn:Hr; [|discriminate].
  cbn [rbind] in H. inversion H; subst g; clear H. cbn [rows].
  apply rmap_Forall2 in Hr.
  rewrite (Forall2_map_eq _ (firstn (List.length keys)) _ _ Hr).
  - apply sort_keys_sorted.
  - intros k o Hk Hf.
    assert (Hlen : List.length k = List.length keys).
    { unfold groups in Hk.
      apply (Permutation_in _ (Permutation_sym (sort_keys_perm _))) in Hk.
      apply nodup_In, in_map_iff in Hk. destruct Hk as [r [<- _]].
      unfold key_of, row_key. apply length_map. }
    destruct (series_min _) as [lo|e]; [|discriminate].
    destruct (series_max _) as [hi|e]; [|discriminate].
    cbn [rbind] in Hf. inversion Hf; subst o.
    rewrite (proj2 (shown_all keys Hshown) k Hlen).
    rewrite <- Hlen. apply firstn_length_app.
Qed.

(** X15: when the three key labels differ and none is the label of an
    aggregate ([min_value], [max_value]), the rows of the report come out
    in the order of their keys (the grouping sorts its groups): by year
    first, then by industry aggregation, then by industry code, numbers
    by value and texts by code point; every row's key is at most the key
    of the row after it. *)
Theorem report1_rows_sorted_by_key
  (p : string -> option Z) (etl : DewpETL) (df out : DataFrame) :
  empty df = false ->
  distinct_labels (report1_keys (src_args etl) ++ aggregate_labels) = true ->
  outcome (transform_report1 p etl df) = Ok out ->
  Sorted key_le (map group_key (rows out)).
Proof.
  intros He Hd Hout. rewrite (transform_report1_outcome p etl df He) in Hout.
  unfold report1_steps in Hout.
  destruct (report1_filtered p (src_args etl) df) as [kept|e]; [|discriminate].
  cbn [rbind] in Hout.
  destruct (groupby_min_max kept (report1_keys (src_args etl))
                            (src_col_value (src_args etl))) as [g|e] eqn:Hg;
    [|discriminate].
  cbn [rbind] in Hout. inversion Hout; subst out; clear Hout.
  cbn [rename_columns rows].
  exact (groupby_min_max_keys_sorted _ _ _ _ (keys_all_shown _ Hd) Hg).
Qed.

Lemma report1_rows_sorted_by_key_witness :
  Sorted key_le (map group_key (rows Cases.four_groups_report)).
Proof.
  apply (report1_rows_sorted_by_key decimal_text (Scenario.etl [])
           Cases.four_groups Cases.four_groups_report).
  - reflexivity.
  - reflexivity.
  - vm_compute. reflexivity.
Defined.

(** ** From the rows of the source to the rows of the report *)

Lemma check_groupers_Ok (cols keys : list string) :
  check_groupers cols keys = Ok tt -> forall k, In k keys -> occurrences k cols = 1%nat.
Proof.
  induction keys as [|k0 keys IH]; intros H k Hin; [destruct Hin|].
  cbn [check_groupers] in H.
  destruct (occurrences k0 cols) as [|[|n]] eqn:E; try discriminate.
  destruct Hin as [<-|Hin]; [assumption | now apply IH].
Qed.

Lemma groupby_min_max_labels (df : DataFrame) (keys : list string) (value : string)
      (g : DataFrame) :
  groupby_min_max df keys value = Ok g ->
  (forall k, In k keys -> occurrences k (columns df) = 1%nat) /\
  occurrences value (columns df) = 1%nat.
Proof.
  unfold groupby_min_max. intros H.
  destruct (check_groupers (columns df) keys) as [[]|e] eqn:Hg; [|discriminate].
  cbn [rbind] in H. unfold check_aggregated in H.
  destruct (occurrences value (columns df)) as [|[|n]] eqn:Ho; try discriminate.
  split; [exact (check_groupers_Ok _ _ Hg) | reflexivity].
Qed.

Lemma Forall2_In_l {A B : Type} (R : A -> B -> Prop) (l : list A) (l' : list B) (a : A) :
  Forall2 R l l' -> In a l -> exists b, In b l' /\ R a b.
Proof.
  intros F. induction F as [|a0 b0 l l' Hab F IH]; intros Hin; [destruct Hin|].
  destruct Hin as [<-|Hin].
  - exists b0. split; [now left | assumption].
  - destruct (IH Hin) as [b [Hb HR]]. exists b. split; [now right | assumption].
Qed.

Lemma report1_steps_inv (p : string -> option Z) (etl : DewpETL) (df out : DataFrame) :
  report1_steps p etl df = Ok out ->
  exists d g,
    let src := src_args etl in
    let cols := flat_map (fun l => filter (String.eqb l) (columns df)) (src_columns src) in
    let coerced :=
      map (fun r => coerced_row p cols (src_col_value src)
                                (projected_row (src_columns src) (columns df) r))
          (rows df) in
    let kept :=
      mkDF cols (filter (fun r => year_at_least d (getcell (src_col_year src) cols r))
                        coerced) in
    (forall l, In l (src_columns src) -> In l (columns df)) /\
    In (src_col_value src) (src_columns src) /\
    In (src_col_year src) (src_columns src) /\
    number_literal (src_col_year_filter src) = Some d /\
    report1_filtered p src df = Ok kept /\
    groupby_min_max kept (report1_keys src) (src_col_value src) = Ok g /\
    rows out = rows g.
Proof.
  unfold report1_steps. intros H.
  destruct (report1_filtered p (src_args etl) df) as [kept|e] eqn:Hk; [|discriminate].
  cbn [rbind] in H.
  destruct (groupby_min_max kept _ _) as [g|e] eqn:Hg; [|discriminate].
  cbn [rbind] in H. inversion H; subst out; clear H.
  pose proof Hk as Hk0. unfold report1_filtered in Hk.
  destruct (report1_coerced p (src_args etl) df) as [coerced|e] eqn:Hc; [|discriminate].
  cbn [rbind] in Hk.
  destruct (query_ge_Ok _ _ _ _ Hk) as [d [Hname [Hyear [Hlit [Hcols Hrows]]]]].
  destruct (report1_coerced_inv p _ df coerced Hc) as [projected [Hloc Hocc]].
  rewrite (report1_coerced_rows p _ df projected Hloc Hocc) in Hc.
  inversion Hc; subst coerced; clear Hc.
  destruct (loc_columns_Ok df _ projected Hloc) as [Hin ->].
  cbn [columns rows] in *.
  assert (Hkept : kept =
                  mkDF (flat_map (fun l => filter (String.eqb l) (columns df))
                                 (src_columns (src_args etl)))
                       (filter (fun r => year_at_least d
                                           (getcell (src_col_year (src_args etl))
                                              (flat_map (fun l => filter (String.eqb l)
                                                                         (columns df))
                                                        (src_columns (src_args etl))) r))
                               (map (fun r => coerced_row p
                                                (flat_map (fun l => filter (String.eqb l)
                                                                           (columns df))
                                                          (src_columns (src_args etl)))
                                                (src_col_value (src_args etl))
                                                (projected_row (src_columns (src_args etl))
                                                               (columns df) r))
                                    (rows df)))).
  { destruct kept as [kc kr]. cbn [columns rows] in *. subst kc kr.
    now rewrite map_map. }
  exists d, g. cbv zeta. rewrite <- Hkept.
  split; [exact Hin|]. split.
  { apply (In_projected_columns _ _ (columns df)). apply occurrences_pos.
    rewrite Hocc. discriminate. }
  split; [exact (In_projected_columns _ _ _ Hyear)|].
  split; [exact Hlit|]. split; [first [exact Hk0 | reflexivity]|].
  split; [first [exact Hg | reflexivity] | reflexivity].
Qed.

(** X16: the report covers every row of the source that counts.  Take a
    configuration whose year label reads as a name, whose threshold is an
    integer literal, whose three key labels differ and are not the label
    of an aggregate, and whose value column is not a key.  When
    [transform_report1] returns on a frame that is not empty, each row of
    the frame whose year is a number at least the threshold and whose
    three keys are not missing has its report row: the row with these
    three keys, in which the minimum is at most the coerced value of the
    source row (zero when it is no number) and the maximum at least that
    value. *)
Theorem report1_covers_source_rows
  (p : string -> option Z) (etl : DewpETL) (df out : DataFrame)
  (r : list cell) (y t : Z) :
  empty df = false ->
  is_name (src_col_year (src_args etl)) = true ->
  int_literal (src_col_year_filter (src_args etl)) = Some t ->
  ~ In (src_col_value (src_args etl)) (report1_keys (src_args etl)) ->
  distinct_labels (report1_keys (src_args etl) ++ aggregate_labels) = true ->
  outcome (transform_report1 p etl df) = Ok out ->
  In r (rows df) ->
  getcell (src_col_year (src_args etl)) (columns df) r = Num y ->
  (t <= y)%Z ->
  ~ In NaN (row_key (report1_keys (src_args etl)) (columns df) r) ->
  exists lo hi v,
    In (row_key (report1_keys (src_args etl)) (columns df) r ++ [Num lo; Num hi])
       (rows out) /\
    fill0 (to_numeric_scalar p (getcell (src_col_value (src_args etl)) (columns df) r))
    = Num v /\
    (lo <= v <= hi)%Z.
Proof.
  intros He _ Hint Hnotkey Hd Hout Hr Hy Hthr Hkey.
  rewrite (transform_report1_outcome p etl df He) in Hout.
  destruct (report1_steps_inv p etl df out Hout)
    as [d [g [Hin [Hval [Hyear [Hlit [Hk [Hg Hrows]]]]]]]].
  rewrite (int_literal_number_literal _ _ Hint) in Hlit.
  inversion Hlit; subst d; clear Hlit.
  set (src := src_args etl) in *.
  set (cols := flat_map (fun l => filter (String.eqb l) (columns df)) (src_columns src))
    in *.
  set (r' := coerced_row p cols (src_col_value src)
                         (projected_row (src_columns src) (columns df) r)).
  destruct (groupby_min_max_labels _ _ _ _ Hg) as [Hkeys Hocc].
  cbn [columns] in Hkeys, Hocc.
  assert (Hkeys_in : forall k, In k (report1_keys src) ->
                               In k (src_columns src) /\ k <> src_col_value src).
  { intros k Hk'. split.
    - apply (In_projected_columns _ _ (columns df)). apply occurrences_pos.
      fold cols. rewrite (Hkeys k Hk'). discriminate.
    - intros ->. contradiction. }
  assert (Hcell : forall k, In k (report1_keys src) ->
                            getcell k cols r' = getcell k (columns df) r).
  { intros k Hk'. destruct (Hkeys_in k Hk') as [H1 H2]. unfold r', coerced_row.
    rewrite !getcell_put_other by exact H2.
    now apply getcell_projected. }
  assert (Hvalue : getcell (src_col_value src) cols r' =
                   fill0 (to_numeric_scalar p
                            (getcell (src_col_value src) (columns df) r))).
  { unfold r', coerced_row. rewrite getcell_put_same.
    - unfold cols. now rewrite getcell_projected.
    - apply occurrences_pos. rewrite Hocc. discriminate. }
  assert (Hr' : In r' (filter (fun r0 => year_at_least (mkDecimal t 0)
                                           (getcell (src_col_year src) cols r0))
                              (map (fun r0 => coerced_row p cols (src_col_value src)
                                                (projected_row (src_columns src)
                                                               (columns df) r0))
                                   (rows df)))).
  { apply filter_In. split.
    - apply in_map_iff. exists r. split; [reflexivity | assumption].
    - rewrite (Hcell (src_col_year src)) by (unfold report1_keys; cbn [In]; tauto).
      rewrite Hy. cbn [year_at_least]. unfold decimal_le. cbn [mantissa scale].
      apply Z.leb_le. change (10 ^ Z.of_nat 0)%Z with 1%Z. lia. }
  assert (Hrk : row_key (report1_keys src) cols r' =
                row_key (report1_keys src) (columns df) r).
  { unfold row_key. apply map_ext_in. exact Hcell. }
  destruct (groupby_min_max_Ok _ _ _ _ Hg (report1_filtered_values p src df _ Hk))
    as [_ [groups [_ [Hgroups HF]]]].
  cbn [columns rows] in Hgroups, HF.
  assert (Hingroup : In (row_key (report1_keys src) (columns df) r) groups).
  { apply Hgroups. exists r'. split; [exact Hr'|]. split; [exact Hrk|].
    now apply existsb_is_nan. }
  destruct (Forall2_In_l _ _ _ _ HF Hingroup) as [o [Ho Hexact]].
  pose proof (proj1 (exact_row_full_row src cols _ _ _ _ Hd Hexact)) as [lo' [hi' Ho']].
  destruct Hexact as [lo [hi [Hshape [_ [_ Hb]]]]].
  destruct (Hb r' Hr' Hrk) as [v [Hv Hle]].
  assert (Hlohi : lo' = lo /\ hi' = hi).
  { destruct (shown_all _ (keys_all_shown _ Hd)) as [_ Hcells].
    rewrite Hcells in Hshape by (unfold row_key; now rewrite length_map).
    rewrite Hshape in Ho'. apply app_inv_head in Ho'. inversion Ho'. tauto. }
  destruct Hlohi as [-> ->].
  exists lo, hi, v. rewrite Hrows, <- Ho'. split; [exact Ho|].
  split; [now rewrite <- Hvalue | exact Hle].
Qed.

Lemma report1_covers_source_rows_witness :
  exists lo hi v,
    In (row_key (report1_keys Scenario.source) Scenario.header
                [Num 2017; Str "A"; Str "Z"; Str "Dollars"; Str "n/a"]
          ++ [Num lo; Num hi])
       (rows Cases.four_groups_report) /\
    fill0 (to_numeric_scalar decimal_text
             (getcell "Value" Scenario.header
                      [Num 2017; Str "A"; Str "Z"; Str "Dollars"; Str "n/a"]))
    = Num v /\
    (lo <= v <= hi)%Z.
Proof.
  apply (report1_covers_source_rows decimal_text (Scenario.etl [])
           Cases.four_groups Cases.four_groups_report
           [Num 2017; Str "A"; Str "Z"; Str "Dollars"; Str "n/a"] 2017%Z 2015%Z).
  - reflexivity.
  - reflexivity.
  - reflexivity.
  - cbn. intros [H|[H|[H|[]]]]; discriminate.
  - reflexivity.
  - vm_compute. reflexivity.
  - cbn. tauto.
  - reflexivity.
  - lia.
  - vm_compute. intros [H|[H|[H|[]]]]; discriminate.
Defined.

(** ** Frames and configurations on which the transformation returns *)

Lemma occurrences_NoDup (cols : list string) (label : string) :
  NoDup cols -> In label cols -> occurrences label cols = 1%nat.
Proof.
  intros Hnd Hin. unfold occurrences.
  now rewrite (filter_eqb_NoDup label cols Hnd Hin).
Qed.

Lemma check_groupers_total (cols keys : list string) :
  (forall k, In k keys -> occurrences k cols = 1%nat) -> check_groupers cols keys = Ok tt.
Proof.
  induction keys as [|k keys IH]; intros H; [reflexivity|].
  cbn [check_groupers]. rewrite (H k (or_introl eq_refl)).
  apply IH. intros; apply H. now right.
Qed.

Lemma series_min_max_total (s : Series) :
  (forall c, In c s -> exists z, c = Num z) ->
  exists lo hi, series_min s = Ok lo /\ series_max s = Ok hi.
Proof.
  intros H. destruct (numbers_of_numbers s H) as [zs [Hn _]].
  unfold series_min, series_max. rewrite Hn. cbn [rbind].
  do 2 eexists. split; reflexivity.
Qed.

Lemma distinct_keys_shown (keys : list string) :
  distinct_labels (keys ++ aggregate_labels) = true ->
  distinct_labels (shown_labels keys) = true.
Proof.
  intros Hd. rewrite (proj1 (shown_all _ (keys_all_shown _ Hd))).
  apply distinct_labels_NoDup. apply distinct_labels_NoDup in Hd.
  exact (NoDup_app_remove_r _ _ Hd).
Qed.

Lemma groupby_min_max_total (df : DataFrame) (keys : list string) (value : string) :
  (forall k, In k keys -> occurrences k (columns df) = 1%nat) ->
  occurrences value (columns df) = 1%nat ->
  distinct_labels (shown_labels keys) = true ->
  (forall r, In r (rows df) -> exists z, getcell value (columns df) r = Num z) ->
  exists g, groupby_min_max df keys value = Ok g.
Proof.
  intros Hkeys Hocc Hd Hnum. unfold groupby_min_max.
  rewrite (check_groupers_total _ _ Hkeys). cbn [rbind].
  unfold check_aggregated, check_output_labels.
  rewrite Hocc, Hd. cbn [rbind].
  match goal with
  | |- context [rmap ?f ?l] => destruct (rmap_total f l) as [out Hout]
  end.
  - intros k _.
    match goal with
    | |- context [series_min ?s] =>
        destruct (series_min_max_total s) as [lo [hi [Hlo Hhi]]]
    end.
    + intros c Hc. apply in_map_iff in Hc. destruct Hc as [r [<- Hr]].
      apply Hnum. apply filter_In in Hr. destruct Hr as [Hr _].
      apply filter_In in Hr. tauto.
    + rewrite Hlo, Hhi. cbn [rbind]. eexists; reflexivity.
  - rewrite Hout. cbn [rbind]. eexists; reflexivity.
Qed.

(** X17: [transform_report1] returns a report on every well-formed input:
    a frame with distinct labels that has the configured columns, listed
    without repetition; the three keys and the value column among them,
    the value column not a key; keys with three different labels, none of
    them [min_value] or [max_value]; a year label that reads as a name;
    an integer literal as threshold; and no text in the year column.
    Values that are no numbers, missing years or missing keys do not stop
    it. *)
Theorem transform_report1_returns_on_well_formed_input
  (p : string -> option Z) (etl : DewpETL) (df : DataFrame) (t : Z) :
  NoDup (columns df) ->
  NoDup (src_columns (src_args etl)) ->
  (forall l, In l (src_columns (src_args etl)) -> In l (columns df)) ->
  (forall k, In k (report1_keys (src_args etl)) -> In k (src_columns (src_args etl))) ->
  In (src_col_value (src_args etl)) (src_columns (src_args etl)) ->
  ~ In (src_col_value (src_args etl)) (report1_keys (src_args etl)) ->
  distinct_labels (report1_keys (src_args etl) ++ ["min_value"; "max_value"]) = true ->
  is_name (src_col_year (src_args etl)) = true ->
  int_literal (src_col_year_filter (src_args etl)) = Some t ->
  (forall r s, In r (rows df) ->
               getcell (src_col_year (src_args etl)) (columns df) r <> Str s) ->
  exists out, outcome (transform_report1 p etl df) = Ok out.
Proof.
  intros Hnd Hnd' Hin Hkeys Hval Hnotkey Hd Hname Hlit Htext.
  destruct (empty df) eqn:He.
  { exists df. unfold transform_report1. rewrite He. reflexivity. }
  rewrite (transform_report1_outcome p etl df He).
  set (src := src_args etl) in *.
  set (cols := flat_map (fun l => filter (String.eqb l) (columns df)) (src_columns src)).
  assert (Hcols : cols = src_columns src) by (now apply projected_columns_NoDup).
  assert (Hocc : forall l, In l (src_columns src) -> occurrences l cols = 1%nat).
  { intros l Hl. rewrite Hcols. now apply occurrences_NoDup. }
  assert (Hyear : In (src_col_year src) (src_columns src)).
  { apply Hkeys. unfold report1_keys. now left. }
  assert (Hyv : src_col_year src <> src_col_value src).
  { intros E. apply Hnotkey. rewrite <- E. unfold report1_keys. now left. }
  pose proof (loc_columns_present df _ Hin) as Hloc. fold src in Hloc. fold cols in Hloc.
  pose proof (report1_coerced_rows p src df _ Hloc (Hocc _ Hval)) as Hc.
  cbn [columns rows] in Hc.
  destruct (query_ge_total
              (mkDF cols (map (coerced_row p cols (src_col_value src))
                              (map (projected_row (src_columns src) (columns df))
                                   (rows df))))
              (src_col_year src) (src_col_year_filter src) (mkDecimal t 0))
    as [kept Hq].
  { exact Hname. }
  { cbn [columns]. rewrite Hcols. exact Hyear. }
  { exact (int_literal_number_literal _ _ Hlit). }
  { cbn [columns rows]. intros r s Hr.
    apply in_map_iff in Hr. destruct Hr as [r1 [<- Hr1]].
    apply in_map_iff in Hr1. destruct Hr1 as [r0 [<- Hr0]].
    unfold coerced_row. rewrite !getcell_put_other by exact Hyv.
    unfold cols. rewrite getcell_projected by exact Hyear.
    now apply Htext. }
  assert (Hk : report1_filtered p src df = Ok kept).
  { unfold report1_filtered. rewrite Hc. exact Hq. }
  destruct (query_ge_Ok _ _ _ _ Hq) as [_ [_ [_ [_ [Hkcols _]]]]]. cbn [columns] in Hkcols.
  destruct (groupby_min_max_total kept (report1_keys src) (src_col_value src))
    as [g Hg].
  - intros k Hk'. rewrite Hkcols. apply Hocc. now apply Hkeys.
  - rewrite Hkcols. now apply Hocc.
  - exact (distinct_keys_shown _ Hd).
  - exact (report1_filtered_values p src df kept Hk).
  - unfold report1_steps. fold src. rewrite Hk. cbn [rbind]. rewrite Hg. cbn [rbind].
    eexists; reflexivity.
Qed.

Lemma transform_report1_returns_on_well_formed_input_witness :
  exists out,
    outcome (transform_report1 decimal_text (Scenario.etl [])
               (mkDF Scenario.header
                     [[Num 2016; Str "A"; Str "X"; Str "Dollars"; Str "abc"];
                      [NaN; Str "A"; Str "X"; Str "Dollars"; NaN];
                      [Num 2019; NaN; Num 7; Str "Euros"; Num 3]])) = Ok out.
Proof.
  apply (transform_report1_returns_on_well_formed_input decimal_text (Scenario.etl [])
           (mkDF Scenario.header
                 [[Num 2016; Str "A"; Str "X"; Str "Dollars"; Str "abc"];
                  [NaN; Str "A"; Str "X"; Str "Dollars"; NaN];
                  [Num 2019; NaN; Num 7; Str "Euros"; Num 3]])
           2015%Z).
  - repeat constructor; cbn [In]; intuition discriminate.
  - repeat constructor; cbn [In]; intuition discriminate.
  - cbn. intuition (subst; auto).
  - cbn. intuition (subst; auto).
  - cbn. tauto.
  - cbn. intros [H|[H|[H|[]]]]; discriminate.
  - reflexivity.
  - reflexivity.
  - reflexivity.
  - intros r s [<-|[<-|[<-|[]]]]; discriminate.
Defined.

Lemma report1_filtered_value_column (p : string -> option Z) (src : DewpSourceConfig)
      (df kept : DataFrame) :
  report1_filtered p src df = Ok kept ->
  occurrences (src_col_value src) (columns kept) = 1%nat.
Proof.
  unfold report1_filtered. intros H.
  destruct (report1_coerced p src df) as [coerced|e] eqn:Hc; [|discriminate].
  cbn [rbind] in H.
  destruct (query_ge_Ok _ _ _ _ H) as [d [_ [_ [_ [Hcols _]]]]].
  destruct (report1_coerced_inv p src df coerced Hc) as [projected [Hloc Hocc]].
  rewrite (report1_coerced_rows p src df projected Hloc Hocc) in Hc.
  inversion Hc; subst coerced; clear Hc. cbn [columns] in Hcols.
  now rewrite Hcols.
Qed.

(** X14: a year filter that keeps no row does not make the transformation
    raise.  When the frame is not empty, the year filter returns a frame
    without rows, each of the three keys is one column of it, the three
    key labels differ and none is the label of an aggregate, then
    [transform_report1] logs its two messages and returns the five
    columns of the report (the three keys and the two target names) over
    no row at all. *)
Theorem report1_of_nothing_kept
  (p : string -> option Z) (etl : DewpETL) (df kept : DataFrame) :
  empty df = false ->
  report1_filtered p (src_args etl) df = Ok kept ->
  rows kept = [] ->
  (forall k, In k (report1_keys (src_args etl)) ->
             occurrences k (columns kept) = 1%nat) ->
  distinct_labels (report1_keys (src_args etl) ++ aggregate_labels) = true ->
  transform_report1 p etl df =
  ([LogInfo "Applying transformations to Dewp source data for report 1 started...";
    LogInfo "Applying transformations to Dewp source data finished..."],
   Ok (mkDF (report1_keys (src_args etl)
               ++ [trg_col_min_value (trg_args etl); trg_col_max_value (trg_args etl)])
            [])).
Proof.
  intros He Hk Hnil Hkeys Hd.
  rewrite (transform_report1_nonempty p etl df He).
  assert (Hsteps : report1_steps p etl df =
                   Ok (mkDF (report1_keys (src_args etl)
                               ++ [trg_col_min_value (trg_args etl);
                                   trg_col_max_value (trg_args etl)])
                            [])).
  { unfold report1_steps. rewrite Hk. cbn [rbind].
    pose proof (report1_filtered_value_column p _ df kept Hk) as Hocc.
    destruct kept as [cols rs]. cbn [columns rows] in *. subst rs.
    unfold groupby_min_max. cbn [columns rows].
    rewrite (check_groupers_total _ _ Hkeys). cbn [rbind].
    unfold check_aggregated, check_output_labels.
    rewrite Hocc, (distinct_keys_shown _ Hd). cbn [rbind filter map nodup sort_keys rmap].
    unfold rename_columns. cbn [columns rows].
    rewrite map_app, renamed_shown_labels.
    rewrite (proj1 (shown_all _ (keys_all_shown _ Hd))). reflexivity. }
  rewrite Hsteps. reflexivity.
Qed.

Lemma report1_of_nothing_kept_witness :
  transform_report1 decimal_text (Cases.etl_since "2020") Scenario.three_rows =
  ([LogInfo "Applying transformations to Dewp source data for report 1 started...";
    LogInfo "Applying transformations to Dewp source data finished..."],
   Ok (mkDF ["Year"; "Industry_aggregation_NZSIOC"; "Industry_code_NZSIOC";
             "min_value"; "max_value"]
            [])).
Proof.
  apply (report1_of_nothing_kept decimal_text (Cases.etl_since "2020")
           Scenario.three_rows (mkDF (src_columns Scenario.source) [])).
  - reflexivity.
  - reflexivity.
  - reflexivity.
  - intros k [<-|[<-|[<-|[]]]]; reflexivity.
  - reflexivity.
Defined.

(** ** The order of the keys is a total order *)

Lemma ascii_compare_lt_trans (a b c : ascii) :
  Ascii.compare a b = Lt -> Ascii.compare b c = Lt -> Ascii.compare a c = Lt.
Proof.
  unfold Ascii.compare. rewrite !N.compare_lt_iff. apply N.lt_trans.
Qed.

Lemma string_compare_lt_trans (s t u : string) :
  String.compare s t = Lt -> String.compare t u = Lt -> String.compare s u = Lt.
Proof.
  revert t u. induction s as [|a s IH]; intros [|b t] [|c u]; cbn [String.compare];
    try congruence.
  destruct (Ascii.compare a b) eqn:Hab; try discriminate;
    destruct (Ascii.compare b c) eqn:Hbc; try discriminate; intros H1 H2.
  - apply Ascii.compare_eq_iff in Hab, Hbc. subst b c.
    assert (Haa : Ascii.compare a a = Eq) by (unfold Ascii.compare; apply N.compare_refl).
    rewrite Haa. now apply (IH t u).
  - apply Ascii.compare_eq_iff in Hab. subst b. now rewrite Hbc.
  - apply Ascii.compare_eq_iff in Hbc. subst c. now rewrite Hab.
  - now rewrite (ascii_compare_lt_trans a b c Hab Hbc).
Qed.

Lemma string_compare_refl (s : string) : String.compare s s = Eq.
Proof.
  induction s as [|a s IH]; [reflexivity|]. cbn [String.compare].
  assert (Haa : Ascii.compare a a = Eq) by (unfold Ascii.compare; apply N.compare_refl).
  now rewrite Haa.
Qed.

Lemma string_leb_trans (s t u : string) :
  String.leb s t = true -> String.leb t u = true -> String.leb s u = true.
Proof.
  unfold String.leb.
  destruct (String.compare s t) eqn:Hst; try discriminate;
    destruct (String.compare t u) eqn:Htu; try discriminate; intros _ _.
  - apply String.compare_eq_iff in Hst, Htu. subst. now rewrite string_compare_refl.
  - apply String.compare_eq_iff in Hst. subst. now rewrite Htu.
  - apply String.compare_eq_iff in Htu. subst. now rewrite Hst.
  - now rewrite (string_compare_lt_trans s t u Hst Htu).
Qed.

Lemma cell_leb_trans (a b c : cell) :
  cell_leb a b = true -> cell_leb b c = true -> cell_leb a c = true.
Proof.
  destruct a as [x|s|], b as [y|t|], c as [z|u|]; cbn [cell_leb]; try congruence.
  - rewrite !Z.leb_le. lia.
  - apply string_leb_trans.
Qed.

Lemma cell_leb_antisym (a b : cell) :
  cell_leb a b = true -> cell_leb b a = true -> a = b.
Proof.
  destruct a as [x|s|], b as [y|t|]; cbn [cell_leb]; try congruence.
  - rewrite !Z.leb_le. intros. f_equal. lia.
  - intros H1 H2. f_equal. now apply String.leb_antisym.
Qed.

Lemma key_leb_antisym (k1 k2 : list cell) :
  key_leb k1 k2 = true -> key_leb k2 k1 = true -> k1 = k2.
Proof.
  revert k2. induction k1 as [|a k1 IH]; intros [|b k2]; cbn [key_leb];
    try congruence.
  destruct (cell_eq_dec a b) as [->|Hne].
  - destruct (cell_eq_dec b b); [|congruence]. intros H1 H2. f_equal. now apply IH.
  - destruct (cell_eq_dec b a); [congruence|]. intros H1 H2.
    exfalso. apply Hne. now apply cell_leb_antisym.
Qed.

Lemma key_leb_trans (k1 k2 k3 : list cell) :
  key_leb k1 k2 = true -> key_leb k2 k3 = true -> key_leb k1 k3 = true.
Proof.
  revert k2 k3. induction k1 as [|a k1 IH]; intros [|b k2] [|c k3]; cbn [key_leb];
    try congruence.
  destruct (cell_eq_dec a b) as [->|Hab].
  - destruct (cell_eq_dec b c) as [->|Hbc]; [apply IH | auto].
  - destruct (cell_eq_dec b c) as [->|Hbc].
    + destruct (cell_eq_dec a c); [congruence | auto].
    + intros H1 H2. destruct (cell_eq_dec a c) as [->|Hac].
      * exfalso. apply Hab. now apply cell_leb_antisym.
      * now apply (cell_leb_trans a b c).
Qed.

Lemma sorted_keys_unique (l l' : list (list cell)) :
  Sorted key_le l -> Sorted key_le l' -> Permutation l l' -> l = l'.
Proof.
  intros Hs Hs'.
  assert (Htrans : Relations_1.Transitive key_le).
  { intros x y z. unfold key_le. apply key_leb_trans. }
  apply (Sorted_StronglySorted Htrans) in Hs.
  apply (Sorted_StronglySorted Htrans) in Hs'.
  revert l' Hs'. induction Hs as [|a l Hs IH Hall]; intros l' Hs' Hp.
  - now apply Permutation_nil in Hp.
  - destruct Hs' as [|b l' Hs' Hall'].
    + apply Permutation_sym, Permutation_nil in Hp. discriminate.
    + assert (Hab : a = b).
      { assert (Ha : In a (b :: l')) by (apply (Permutation_in _ Hp); now left).
        assert (Hb : In b (a :: l))
          by (apply (Permutation_in _ (Permutation_sym Hp)); now left).
        destruct Ha as [Ha|Ha]; [congruence|].
        destruct Hb as [Hb|Hb]; [congruence|].
        rewrite Forall_forall in Hall, Hall'.
        apply key_leb_antisym; [exact (Hall b Hb) | exact (Hall' a Ha)]. }
      subst b. f_equal. apply IH; [assumption|].
      exact (Permutation_cons_inv Hp).
Qed.

Lemma sort_keys_permuted (l l' : list (list cell)) :
  Permutation l l' -> sort_keys l = sort_keys l'.
Proof.
  intros Hp. apply sorted_keys_unique; try apply sort_keys_sorted.
  rewrite <- (sort_keys_perm l), <- (sort_keys_perm l'). exact Hp.
Qed.

(** ** The order of the source rows *)

Lemma filter_permuted {A : Type} (f : A -> bool) (l l' : list A) :
  Permutation l l' -> Permutation (filter f l) (filter f l').
Proof.
  intros Hp. induction Hp as [|x l l' Hp IH|x y l|l l' l'' Hp1 IH1 Hp2 IH2].
  - constructor.
  - cbn [filter]. destruct (f x); [now constructor | assumption].
  - cbn [filter]. destruct (f x), (f y); try reflexivity. apply perm_swap.
  - now transitivity (filter f l').
Qed.

Definition same_outcome {A : Type} (R : A -> A -> Prop) (r1 r2 : result A) : Prop :=
  match r1, r2 with
  | Ok a1, Ok a2 => R a1 a2
  | Raise e1, Raise e2 => e1 = e2
  | _, _ => False
  end.

Lemma numbers_raise_is_type_error (s : Series) (e : exn) :
  numbers s = Raise e ->
  e = TypeError "'<=' not supported between instances of 'str' and 'int'".
Proof.
  induction s as [|c s IH]; cbn [numbers]; [discriminate|].
  destruct c as [z|t|].
  - destruct (numbers s) as [zs|e']; cbn [rbind]; [discriminate|].
    intros H. inversion H; subst. now apply IH.
  - intros H. now inversion H.
  - exact IH.
Qed.

Lemma numbers_permuted (s s' : Series) :
  Permutation s s' -> same_outcome (@Permutation Z) (numbers s) (numbers s').
Proof.
  intros Hp. induction Hp as [|x l l' Hp IH|x y l|l l' l'' Hp1 IH1 Hp2 IH2].
  - cbn. constructor.
  - cbn [numbers]. destruct x as [z|t|]; [|reflexivity|exact IH].
    destruct (numbers l) as [zs|e], (numbers l') as [zs'|e']; cbn in *;
      try contradiction; [now constructor | assumption].
  - cbn [numbers].
    destruct (numbers l) as [zs|e] eqn:Hn.
    + destruct x as [zx|tx|], y as [zy|ty|]; cbn; try reflexivity.
      apply perm_swap.
    + pose proof (numbers_raise_is_type_error l e Hn) as ->.
      destruct x as [zx|tx|], y as [zy|ty|]; cbn; reflexivity.
  - destruct (numbers l) as [zs|e], (numbers l') as [zs'|e'],
      (numbers l'') as [zs''|e'']; cbn in *; try contradiction; try congruence.
    now transitivity zs'.
Qed.

Lemma fold_min_permuted (z z' : Z) (zs zs' : list Z) :
  Permutation (z :: zs) (z' :: zs') -> fold_left Z.min zs z = fold_left Z.min zs' z'.
Proof.
  intros Hp.
  destruct (fold_min_spec zs z) as [Hin Hle].
  destruct (fold_min_spec zs' z') as [Hin' Hle'].
  apply Z.le_antisymm.
  - apply Hle. exact (Permutation_in _ (Permutation_sym Hp) Hin').
  - apply Hle'. exact (Permutation_in _ Hp Hin).
Qed.

Lemma fold_max_permuted (z z' : Z) (zs zs' : list Z) :
  Permutation (z :: zs) (z' :: zs') -> fold_left Z.max zs z = fold_left Z.max zs' z'.
Proof.
  intros Hp.
  destruct (fold_max_spec zs z) as [Hin Hle].
  destruct (fold_max_spec zs' z') as [Hin' Hle'].
  apply Z.le_antisymm.
  - apply Hle'. exact (Permutation_in _ Hp Hin).
  - apply Hle. exact (Permutation_in _ (Permutation_sym Hp) Hin').
Qed.

Lemma series_min_max_permuted (s s' : Series) :
  Permutation s s' -> series_min s = series_min s' /\ series_max s = series_max s'.
Proof.
  intros Hp. pose proof (numbers_permuted s s' Hp) as H.
  unfold series_min, series_max.
  destruct (numbers s) as [zs|e], (numbers s') as [zs'|e']; cbn in H;
    try contradiction; cbn [rbind]; [|subst; split; reflexivity].
  destruct zs as [|z zs], zs' as [|z' zs'].
  - split; reflexivity.
  - apply Permutation_nil in H. discriminate.
  - apply Permutation_sym, Permutation_nil in H. discriminate.
  - rewrite (fold_min_permuted z z' zs zs' H), (fold_max_permuted z z' zs zs' H).
    split; reflexivity.
Qed.

Lemma rmap_ext_In {A B : Type} (f g : A -> result B) (l : list A) :
  (forall a, In a l -> f a = g a) -> rmap f l = rmap g l.
Proof.
  induction l as [|a l IH]; intros H; [reflexivity|].
  cbn [rmap]. rewrite (H a (or_introl eq_refl)), IH; [reflexivity|].
  intros; apply H. now right.
Qed.

Lemma groupby_min_max_permuted (cols : list string) (rows1 rows2 : list (list cell))
      (keys : list string) (value : string) :
  Permutation rows1 rows2 ->
  groupby_min_max (mkDF cols rows1) keys value =
  groupby_min_max (mkDF cols rows2) keys value.
Proof.
  intros Hp. unfold groupby_min_max. cbn [columns rows].
  destruct (check_groupers cols keys) as [[]|e]; [|reflexivity].
  destruct (check_aggregated cols value) as [[]|e]; [|reflexivity].
  destruct (check_output_labels keys) as [[]|e]; [|reflexivity].
  cbn [rbind].
  set (key_of := row_key keys cols).
  set (keep := fun r => negb (existsb is_nan (key_of r))).
  assert (Hkept : Permutation (filter keep rows1) (filter keep rows2))
    by now apply filter_permuted.
  assert (Hgroups : sort_keys (nodup key_eq_dec (map key_of (filter keep rows1))) =
                    sort_keys (nodup key_eq_dec (map key_of (filter keep rows2)))).
  { apply sort_keys_permuted. apply NoDup_Permutation; try apply NoDup_nodup.
    intros k. rewrite !nodup_In. split; apply Permutation_in.
    - now apply Permutation_map.
    - now apply Permutation_map, Permutation_sym. }
  rewrite Hgroups.
  match goal with
  | |- rbind (rmap ?f ?l) _ = rbind (rmap ?g ?l) _ =>
      rewrite (rmap_ext_In f g l); [reflexivity|]
  end.
  intros k _.
  destruct (series_min_max_permuted
              (map (getcell value cols)
                   (filter (fun r => same_key (key_of r) k) (filter keep rows1)))
              (map (getcell value cols)
                   (filter (fun r => same_key (key_of r) k) (filter keep rows2))))
    as [Hmin Hmax].
  { now apply Permutation_map, filter_permuted. }
  now rewrite Hmin, Hmax.
Qed.

Lemma rmap_Raise_inv {A B : Type} (f : A -> result B) (l : list A) (e : exn) :
  rmap f l = Raise e -> exists a, In a l /\ f a = Raise e.
Proof.
  induction l as [|a l IH]; cbn [rmap]; [discriminate|].
  destruct (f a) as [b|e'] eqn:Hf; cbn [rbind].
  - destruct (rmap f l) as [bs|e'']; cbn [rbind]; [discriminate|].
    intros H. inversion H; subst.
    destruct (IH eq_refl) as [a0 [Hin H0]]. exists a0. split; [now right | assumption].
  - intros H. inversion H; subst. exists a. split; [now left | assumption].
Qed.

Lemma rmap_Ok_all {A B : Type} (f : A -> result B) (l : list A) (l' : list B) (a : A) :
  rmap f l = Ok l' -> In a l -> exists b, f a = Ok b.
Proof.
  intros H Hin. apply rmap_Forall2 in H.
  destruct (Forall2_In_l _ _ _ _ H Hin) as [b [_ Hb]]. eauto.
Qed.

Definition same_frame_up_to_row_order (d1 d2 : DataFrame) : Prop :=
  columns d1 = columns d2 /\ Permutation (rows d1) (rows d2).

Lemma query_ge_permuted (cols : list string) (rows1 rows2 : list (list cell))
      (name lit : string) :
  Permutation rows1 rows2 ->
  same_outcome same_frame_up_to_row_order
               (query_ge (mkDF cols rows1) name lit) (query_ge (mkDF cols rows2) name lit).
Proof.
  intros Hp. unfold query_ge. cbn [columns rows].
  destruct (is_name name); [|reflexivity].
  destruct (has_label cols name); [|reflexivity].
  destruct (number_literal lit) as [d|]; [|destruct (is_name lit); reflexivity].
  assert (Herr : forall r r' e e',
             ge_mask d (getcell name cols r) = Raise e ->
             ge_mask d (getcell name cols r') = Raise e' -> e = e').
  { intros r r' e e'.
    destruct (getcell name cols r), (getcell name cols r'); cbn [ge_mask];
      intros H H'; inversion H; inversion H'; reflexivity. }
  destruct (rmap (fun r => ge_mask d (getcell name cols r)) rows1) as [m1|e1] eqn:H1,
           (rmap (fun r => ge_mask d (getcell name cols r)) rows2) as [m2|e2] eqn:H2;
    cbn [rbind same_outcome].
  - split; [reflexivity|]. cbn [rows].
    rewrite (keep_masked_filter d (getcell name cols) rows1 m1 H1).
    rewrite (keep_masked_filter d (getcell name cols) rows2 m2 H2).
    now apply filter_permuted.
  - destruct (rmap_Raise_inv _ _ _ H2) as [a [Hin Ha]].
    destruct (rmap_Ok_all _ _ _ a H1) as [b Hb];
      [exact (Permutation_in _ (Permutation_sym Hp) Hin) | congruence].
  - destruct (rmap_Raise_inv _ _ _ H1) as [a [Hin Ha]].
    destruct (rmap_Ok_all _ _ _ a H2) as [b Hb];
      [exact (Permutation_in _ Hp Hin) | congruence].
  - destruct (rmap_Raise_inv _ _ _ H1) as [a1 [_ Ha1]].
    destruct (rmap_Raise_inv _ _ _ H2) as [a2 [_ Ha2]].
    exact (Herr _ _ _ _ Ha1 Ha2).
Qed.

Lemma report1_coerced_shape (p : string -> option Z) (src : DewpSourceConfig)
      (cols : list string) :
  (exists e, forall rs, report1_coerced p src (mkDF cols rs) = Raise e) \/
  (exists c f, forall rs, report1_coerced p src (mkDF cols rs) = Ok (mkDF c (map f rs))).
Proof.
  destruct (filter (fun l => negb (has_label cols l)) (src_columns src)) as [|m ms] eqn:Hf.
  - assert (Hloc : forall rs,
               loc_columns (mkDF cols rs) (src_columns src) =
               Ok (mkDF (flat_map (fun l => filter (String.eqb l) cols) (src_columns src))
                        (map (projected_row (src_columns src) cols) rs))).
    { intros rs. unfold loc_columns. cbn [columns rows]. rewrite Hf. reflexivity. }
    destruct (occurrences (src_col_value src)
                (flat_map (fun l => filter (String.eqb l) cols) (src_columns src)))
      as [|[|n]] eqn:Ho.
    + left. eexists. intros rs. unfold report1_coerced. rewrite Hloc. cbn [rbind].
      unfold getitem. cbn [columns]. rewrite Ho. reflexivity.
    + right. do 2 eexists. intros rs.
      rewrite (report1_coerced_rows p src _ _ (Hloc rs) Ho). cbn [columns rows].
      rewrite map_map. reflexivity.
    + left. eexists. intros rs. unfold report1_coerced. rewrite Hloc. cbn [rbind].
      unfold getitem. cbn [columns]. rewrite Ho. reflexivity.
  - left. eexists. intros rs. unfold report1_coerced, loc_columns.
    cbn [columns rows]. rewrite Hf. reflexivity.
Qed.

(** X18: the report does not depend on the order of the source rows: on
    two frames with the same columns (at least one) whose rows are a
    rearrangement of one another, [transform_report1] has the same
    outcome: the same report, row for row, or the same exception. *)
Theorem report1_independent_of_row_order
  (p : string -> option Z) (etl : DewpETL) (cols : list string)
  (rows1 rows2 : list (list cell)) :
  cols <> [] ->
  Permutation rows1 rows2 ->
  outcome (transform_report1 p etl (mkDF cols rows1)) =
  outcome (transform_report1 p etl (mkDF cols rows2)).
Proof.
  intros Hcols Hp.
  destruct rows1 as [|r1 rows1].
  { apply Permutation_nil in Hp. now subst. }
  destruct rows2 as [|r2 rows2].
  { apply Permutation_sym, Permutation_nil in Hp. discriminate. }
  assert (He : forall r rs, empty (mkDF cols (r :: rs)) = false).
  { intros r rs. unfold empty. cbn [columns rows]. destruct cols; [congruence|].
    reflexivity. }
  rewrite !transform_report1_outcome by apply He.
  unfold report1_steps, report1_filtered.
  destruct (report1_coerced_shape p (src_args etl) cols) as [[e H]|[c [f H]]];
    rewrite !H; [reflexivity|].
  cbn [rbind].
  pose proof (query_ge_permuted c (map f (r1 :: rows1)) (map f (r2 :: rows2))
                (src_col_year (src_args etl)) (src_col_year_filter (src_args etl))
                (Permutation_map f Hp)) as Hq.
  destruct (query_ge (mkDF c (map f (r1 :: rows1))) _ _) as [[c1 k1]|e1],
           (query_ge (mkDF c (map f (r2 :: rows2))) _ _) as [[c2 k2]|e2];
    cbn [same_outcome] in Hq; try contradiction; [|now subst].
  destruct Hq as [Hc Hk]. cbn [columns rows] in Hc, Hk. subst c2.
  cbn [rbind].
  now rewrite (groupby_min_max_permuted c1 k1 k2 _ _ Hk).
Qed.

Lemma report1_independent_of_row_order_witness :
  outcome (transform_report1 decimal_text (Scenario.etl [])
             (mkDF Scenario.header
                   [ [Num 2016; Str "A"; Str "X"; Str "Dollars"; Str "10"];
                     [Num 2016; Str "A"; Str "X"; Str "Dollars"; Str "abc"];
                     [Num 2014; Str "A"; Str "X"; Str "Dollars"; Str "99"] ])) =
  outcome (transform_report1 decimal_text (Scenario.etl [])
             (mkDF Scenario.header
                   [ [Num 2014; Str "A"; Str "X"; Str "Dollars"; Str "99"];
                     [Num 2016; Str "A"; Str "X"; Str "Dollars"; Str "abc"];
                     [Num 2016; Str "A"; Str "X"; Str "Dollars"; Str "10"] ])).
Proof.
  apply (report1_independent_of_row_order decimal_text (Scenario.etl []) Scenario.header).
  - discriminate.
  - apply perm_trans with
      [ [Num 2016; Str "A"; Str "X"; Str "Dollars"; Str "abc"];
        [Num 2016; Str "A"; Str "X"; Str "Dollars"; Str "10"];
        [Num 2014; Str "A"; Str "X"; Str "Dollars"; Str "99"] ];
      [apply perm_swap|].
    apply perm_trans with
      [ [Num 2016; Str "A"; Str "X"; Str "Dollars"; Str "abc"];
        [Num 2014; Str "A"; Str "X"; Str "Dollars"; Str "99"];
        [Num 2016; Str "A"; Str "X"; Str "Dollars"; Str "10"] ];
      [apply perm_skip, perm_swap | apply perm_swap].
Defined.
